(** * A line-oriented JSON-RPC server (mcp_server.py)

    Shallow embedding of [MCPServer] and of the [main] loop of
    [src/mcp_server.py], with the properties its specification states.

    Conventions of the embedding.
    - A Python value that travels through the server is a decoded JSON value
      ([json]); [None] is [JNull]; a [dict] is an association list that keeps
      insertion order, with unique keys.
    - A Python [str] is a [string]: the sequence of the bytes of its UTF-8
      encoding.
    - Code that can raise returns a [result]; [try]/[except] is a [match] on
      it, with the class test the [except] clause makes.
    - The interpreter services the source calls but does not define
      ([datetime.now], the text of interpreter messages, floating point) are
      the fields of a [Runtime]; every theorem holds for every [Runtime].
    - The limits of the interpreter that decide what [json.loads] raises
      (the room for nested calls, the cap on the length of conversions
      between [int] and [str]) are fields of the [Runtime] too.  The
      arithmetic evaluator follows small sources only and leaves the rest to
      the [Runtime].  No computation runs out of time or memory.
    - Standard error holds the lines the program's own [print] calls write
      there; what the interpreter itself writes (warnings) is not part of
      it. *)

From Stdlib Require Import ZArith List String Ascii Bool Lia.
From Stdlib Require Import Numbers.DecimalString.
Import ListNotations.

Local Open Scope string_scope.
Local Open Scope Z_scope.

Set Warnings "-register-all".

(* ================================================================== *)
(** ** Values *)

(** What [json.loads] can return.  A float is kept as the literal it was read
    from ([float(lit)] in Python, or one of the constants [NaN], [Infinity],
    [-Infinity]); the server never computes with one. *)
Inductive json : Type :=
| JNull
| JBool (b : bool)
| JInt (n : Z)
| JFloat (lit : string)
| JString (s : string)
| JArray (items : list json)
| JObject (fields : list (string * json)).

(** Python's name for the type of a value, as interpreter messages print it. *)
Definition type_name (v : json) : string :=
  match v with
  | JNull => "NoneType"
  | JBool _ => "bool"
  | JInt _ => "int"
  | JFloat _ => "float"
  | JString _ => "str"
  | JArray _ => "list"
  | JObject _ => "dict"
  end.

(* ================================================================== *)
(** ** Exceptions *)

Inductive exn_class : Type :=
| AttributeError
| TypeError
| ValueError
| JSONDecodeError
| SyntaxError
| ZeroDivisionError
| OverflowError
| RecursionError
| KeyboardInterrupt.

Record exn : Type := mkExn { exn_cls : exn_class; exn_msg : string }.

(** [isinstance(e, Exception)]: every class above but [KeyboardInterrupt],
    which derives from [BaseException] only. *)
Definition is_Exception (e : exn) : bool :=
  match exn_cls e with
  | KeyboardInterrupt => false
  | _ => true
  end.

(** [isinstance(e, json.JSONDecodeError)]. *)
Definition is_JSONDecodeError (e : exn) : bool :=
  match exn_cls e with
  | JSONDecodeError => true
  | _ => false
  end.

Inductive result (A : Type) : Type :=
| Ok (a : A)
| Raise (e : exn).

Arguments Ok {A} a.
Arguments Raise {A} e.

Definition bind {A B : Type} (m : result A) (k : A -> result B) : result B :=
  match m with
  | Ok a => k a
  | Raise e => Raise e
  end.

Notation "x <- m ;; k" := (bind m (fun x => k))
  (at level 61, m at next level, right associativity).

(* ================================================================== *)
(** ** Dictionaries *)

Module Dict.

Definition t : Type := list (string * json).

(** [d[k]] when present. *)
Fixpoint lookup (d : t) (k : string) : option json :=
  match d with
  | [] => None
  | (k', v) :: d' => if String.eqb k' k then Some v else lookup d' k
  end.

(** [d.get(k, default)]. *)
Definition get_default (d : t) (k : string) (default : json) : json :=
  match lookup d k with
  | Some v => v
  | None => default
  end.

(** [d[k] = v]: an existing key keeps its place, a new one goes last. *)
Fixpoint set (d : t) (k : string) (v : json) : t :=
  match d with
  | [] => [(k, v)]
  | (k', v') :: d' =>
      if String.eqb k' k then (k', v) :: d' else (k', v') :: set d' k v
  end.

(** [list(d.values())]. *)
Definition values (d : t) : list json := map snd d.

Definition keys (d : t) : list string := map fst d.

End Dict.

(** [v.get(k, default)] on any value: only a [dict] has the method. *)
Definition py_get (v : json) (k : string) (default : json) : result json :=
  match v with
  | JObject d => Ok (Dict.get_default d k default)
  | _ => Raise (mkExn AttributeError
                  ("'" ++ type_name v ++ "' object has no attribute 'get'"))
  end.

(** [v == s] for a string literal [s]. *)
Definition eq_str (v : json) (s : string) : bool :=
  match v with
  | JString t => String.eqb t s
  | _ => false
  end.

(* ================================================================== *)
(** ** The interpreter's services *)

(** A reading of [datetime.now()], by the two renderings the source asks
    for. *)
Record datetime : Type := mkDatetime {
  isoformat : string;
  strftime_ymd_hms : string   (* strftime("%Y-%m-%d %H:%M:%S") *)
}.

(** What an arithmetic evaluation can end in. *)
Inductive eval_fault : Type :=
| ESyntax | EType | EZeroDiv | EOverflow | ERecursion | EValue.

Record Runtime : Type := mkRuntime {
  (** the clock reading the [k]-th request of a run observes *)
  clock : nat -> datetime;
  (** [repr(float(lit))] *)
  float_repr : string -> string;
  (** [repr(s)] of a [str] *)
  str_repr : string -> string;
  (** [str(e)] of the exception that [json.loads(s)] raises *)
  json_error_text : string -> string;
  (** [str(e)] of the exception that [eval(s)], or the conversion of its
      value to [str], raises *)
  eval_error_text : string -> string;
  (** [eval(s)] for a source that [PyEval] below does not evaluate itself
      (one that reaches floating point, say, or is long, or computes a long
      integer): [inl] the [str] of its value, [inr] the fault that [eval], or
      the conversion of its value to [str], raises *)
  eval_other : string -> string + eval_fault;
  (** [sys.get_int_max_str_digits()]: the longest run of digits a conversion
      between [int] and [str] accepts, or 0 for no cap (an interpreter
      without the cap has 0) *)
  int_max_str_digits : Z;
  (** how many containers deeper than the first [json.loads] can enter
      before the interpreter's recursion limit stops it *)
  json_nesting : nat
}.

Definition string_of_Z (n : Z) : string := NilZero.string_of_int (Z.to_int n).

Fixpoint join (sep : string) (l : list string) : string :=
  match l with
  | [] => ""
  | [x] => x
  | x :: l' => x ++ sep ++ join sep l'
  end.

Section Formatting.

Variable rt : Runtime.

(** [repr(v)]. *)
Fixpoint py_repr (v : json) : string :=
  match v with
  | JNull => "None"
  | JBool true => "True"
  | JBool false => "False"
  | JInt n => string_of_Z n
  | JFloat lit => float_repr rt lit
  | JString s => str_repr rt s
  | JArray items => "[" ++ join ", " (map py_repr items) ++ "]"
  | JObject fields =>
      "{" ++ join ", "
               (map (fun kv => str_repr rt (fst kv) ++ ": " ++ py_repr (snd kv))
                    fields)
          ++ "}"
  end.

(** [str(v)], which is what [f"{v}"] inserts: a [str] as it is, anything
    else as its [repr]. *)
Definition py_str (v : json) : string :=
  match v with
  | JString s => s
  | _ => py_repr v
  end.

End Formatting.

(* ================================================================== *)
(** ** Characters and text *)

Definition byte_string (l : list nat) : string :=
  string_of_list_ascii (map ascii_of_nat l).

Definition is_digit (c : ascii) : bool :=
  let n := nat_of_ascii c in (48 <=? n)%nat && (n <=? 57)%nat.

Definition digit_value (c : ascii) : Z := Z.of_nat (nat_of_ascii c) - 48.

(** The value of a run of decimal digits. *)
Fixpoint digits_value (acc : Z) (s : string) : Z :=
  match s with
  | EmptyString => acc
  | String c s' => digits_value (10 * acc + digit_value c) s'
  end.

(** Longest prefix of decimal digits, and what follows it. *)
Fixpoint take_digits (s : string) : string * string :=
  match s with
  | String c s' =>
      if is_digit c
      then let (ds, r) := take_digits s' in (String c ds, r)
      else (EmptyString, s)
  | EmptyString => (EmptyString, EmptyString)
  end.

(** [s] without the prefix [p], when it starts with it. *)
Fixpoint strip_prefix (p s : string) : option string :=
  match p, s with
  | EmptyString, _ => Some s
  | String a p', String b s' =>
      if Ascii.eqb a b then strip_prefix p' s' else None
  | String _ _, EmptyString => None
  end.


Definition string_rev (s : string) : string :=
  string_of_list_ascii (rev (list_ascii_of_string s)).

(** The characters [str.isspace] accepts, in UTF-8: the ASCII ones
    (tab to carriage return, 0x1c to 0x1f, space) and U+0085, U+00A0,
    U+1680, U+2000 to U+200A, U+2028, U+2029, U+202F, U+205F, U+3000. *)
Definition py_whitespace : list string :=
  map byte_string
    (List.app
       [[9]; [10]; [11]; [12]; [13]; [28]; [29]; [30]; [31]; [32];
        [194; 133]; [194; 160]; [225; 154; 128]]
       (List.app
          (map (fun k => [226; 128; k]) (seq 128 11))
          [[226; 128; 168]; [226; 128; 169]; [226; 128; 175];
           [226; 129; 159]; [227; 128; 128]]))%nat.

Fixpoint strip_any (ps : list string) (s : string) : option string :=
  match ps with
  | [] => None
  | p :: ps' =>
      match strip_prefix p s with
      | Some r => Some r
      | None => strip_any ps' s
      end
  end.

Fixpoint lstrip_fuel (fuel : nat) (ps : list string) (s : string) : string :=
  match fuel with
  | O => s
  | S f =>
      match strip_any ps s with
      | Some r => lstrip_fuel f ps r
      | None => s
      end
  end.

(** [s.strip()]. *)
Definition py_strip (s : string) : string :=
  let l := lstrip_fuel (String.length s) py_whitespace s in
  string_rev
    (lstrip_fuel (String.length l) (map string_rev py_whitespace) (string_rev l)).

(* ================================================================== *)
(** ** [json.loads]

    The decoder of Python's [json] package with its default settings: the
    JSON grammar, read strictly, and the three constants [NaN], [Infinity]
    and [-Infinity] that the package accepts on top of it.  Besides the
    [JSONDecodeError] of a text outside this grammar, the decoder can be
    stopped by two limits of the interpreter: a container nested deeper than
    the recursion limit leaves room for is a [RecursionError], an integer
    with more digits than the cap on conversions a [ValueError]. *)

Module JsonDecoder.

(** The four characters the decoder skips between tokens. *)
Definition is_ws (c : ascii) : bool :=
  let n := nat_of_ascii c in
  ((n =? 32) || (n =? 9) || (n =? 10) || (n =? 13))%nat.

Fixpoint skip_ws (s : string) : string :=
  match s with
  | String c s' => if is_ws c then skip_ws s' else s
  | EmptyString => s
  end.

Definition hex_value (c : ascii) : option Z :=
  let n := Z.of_nat (nat_of_ascii c) in
  if (48 <=? n) && (n <=? 57) then Some (n - 48)
  else if (65 <=? n) && (n <=? 70) then Some (n - 55)
  else if (97 <=? n) && (n <=? 102) then Some (n - 87)
  else None.

(** Four hexadecimal digits, as a number. *)
Definition hex4 (s : string) : option (Z * string) :=
  match s with
  | String a (String b (String c (String d r))) =>
      match hex_value a, hex_value b, hex_value c, hex_value d with
      | Some x, Some y, Some z, Some w =>
          Some (((x * 16 + y) * 16 + z) * 16 + w, r)
      | _, _, _, _ => None
      end
  | _ => None
  end.

Definition byte (n : Z) : ascii := ascii_of_nat (Z.to_nat n).

(** UTF-8 encoding of a code point (a lone surrogate is encoded like any
    other three-byte code point). *)
Definition utf8 (cp : Z) : string :=
  if cp <? 128 then String (byte cp) ""
  else if cp <? 2048 then
    String (byte (192 + cp / 64)) (String (byte (128 + cp mod 64)) "")
  else if cp <? 65536 then
    String (byte (224 + cp / 4096))
      (String (byte (128 + (cp / 64) mod 64))
         (String (byte (128 + cp mod 64)) ""))
  else
    String (byte (240 + cp / 262144))
      (String (byte (128 + (cp / 4096) mod 64))
         (String (byte (128 + (cp / 64) mod 64))
            (String (byte (128 + cp mod 64)) ""))).

Definition is_high_surrogate (cp : Z) : bool := (55296 <=? cp) && (cp <=? 56319).
Definition is_low_surrogate (cp : Z) : bool := (56320 <=? cp) && (cp <=? 57343).

(** What follows the [u] of a [\u] escape: the code point, a surrogate pair
    joined, and the rest. *)
Definition scan_unicode_escape (s : string) : option (Z * string) :=
  match hex4 s with
  | None => None
  | Some (c, r) =>
      if is_high_surrogate c then
        match r with
        | String "\" (String "u" r') =>
            match hex4 r' with
            | None => None
            | Some (c2, r'') =>
                if is_low_surrogate c2
                then Some (65536 + (c - 55296) * 1024 + (c2 - 56320), r'')
                else Some (c, r)
            end
        | _ => Some (c, r)
        end
      else Some (c, r)
  end.

Definition dquote : ascii := ascii_of_nat 34.

Definition simple_escape (c : ascii) : option ascii :=
  if Ascii.eqb c dquote then Some dquote else
  match c with
  | "\"%char => Some "\"%char
  | "/"%char => Some "/"%char
  | "b"%char => Some (ascii_of_nat 8)
  | "f"%char => Some (ascii_of_nat 12)
  | "n"%char => Some (ascii_of_nat 10)
  | "r"%char => Some (ascii_of_nat 13)
  | "t"%char => Some (ascii_of_nat 9)
  | _ => None
  end.

(** The body of a string, from after its opening quote to its closing
    one. *)
Fixpoint scanstring (fuel : nat) (s : string) : option (string * string) :=
  match fuel with
  | O => None
  | S f =>
      match s with
      | EmptyString => None
      | String "\" (String "u" r) =>
          match scan_unicode_escape r with
          | None => None
          | Some (cp, r') =>
              match scanstring f r' with
              | Some (t, r'') => Some (utf8 cp ++ t, r'')
              | None => None
              end
          end
      | String "\" (String c r) =>
          match simple_escape c with
          | None => None
          | Some c' =>
              match scanstring f r with
              | Some (t, r') => Some (String c' t, r')
              | None => None
              end
          end
      | String "\" EmptyString => None
      | String c r =>
          if Ascii.eqb c dquote then Some ("", r)
          else if (nat_of_ascii c <? 32)%nat then None
          else
            match scanstring f r with
            | Some (t, r') => Some (String c t, r')
            | None => None
            end
      end
  end.

(** What scanning ends in: a value and the text after it; a text that is
    not what the grammar asks for (a [JSONDecodeError]); or a limit of the
    interpreter that stops the decoder with another exception. *)
Inductive limit : Type :=
| TooDeep                    (* no room to enter one more container *)
| TooLong.                   (* an integer with more digits than the cap *)

Inductive scanned : Type :=
| Scanned (v : json) (rest : string)
| Malformed
| Refused (why : limit).

(** [int(text)] is refused for a text of [digits] digits: the interpreter
    counts the digits of texts longer than 640, and refuses those above its
    cap when it has one. *)
Definition over_cap (cap digits : Z) : bool :=
  (640 <? digits) && (0 <? cap) && (cap <? digits).

(** A number, by the package's pattern: an optional minus sign; [0], or a
    nonzero digit and any digits; then, each optional, a point with one
    digit or more, and [e] or [E] with an optional sign and one digit or
    more.  With a fraction or an exponent it is a float; without, an integer,
    which [int] converts. *)
Definition scan_number (cap : Z) (s : string) : scanned :=
  let '(sign, s1) :=
    match s with
    | String "-" r => ("-", r)
    | _ => ("", s)
    end in
  let int_part :=
    match s1 with
    | String "0" r => Some ("0", r)
    | String c r =>
        if is_digit c
        then let (ds, r') := take_digits r in Some (String c ds, r')
        else None
    | EmptyString => None
    end in
  match int_part with
  | None => Malformed
  | Some (ip, s2) =>
      let '(frac, s3) :=
        match s2 with
        | String "." r =>
            let (ds, r') := take_digits r in
            if String.eqb ds "" then ("", s2) else ("." ++ ds, r')
        | _ => ("", s2)
        end in
      let '(exp, s4) :=
        match s3 with
        | String e r =>
            if Ascii.eqb e "e" || Ascii.eqb e "E" then
              let '(esign, r1) :=
                match r with
                | String "-" r' => ("-", r')
                | String "+" r' => ("+", r')
                | _ => ("", r)
                end in
              let (ds, r2) := take_digits r1 in
              if String.eqb ds "" then ("", s3)
              else (String e (esign ++ ds), r2)
            else ("", s3)
        | EmptyString => ("", s3)
        end in
      if String.eqb frac "" && String.eqb exp ""
      then
        if over_cap cap (Z.of_nat (String.length ip))
        then Refused TooLong
        else Scanned (JInt ((if String.eqb sign "-" then -1 else 1)
                            * digits_value 0 ip)) s4
      else Scanned (JFloat (sign ++ ip ++ frac ++ exp)) s4
  end.

Section Scanner.

(** JSON as its grammar defines it ([strict]), or with the three constants
    [NaN], [Infinity] and [-Infinity] that the package accepts by default. *)
Variable strict : bool.

(** The cap on the digits of an integer. *)
Variable cap : Z.

(** The literals, the numbers and the three extra constants, in the order
    the scanner tries them. *)
Definition scan_atom (s : string) : scanned :=
  match strip_prefix "null" s with
  | Some r => Scanned JNull r
  | None =>
  match strip_prefix "true" s with
  | Some r => Scanned (JBool true) r
  | None =>
  match strip_prefix "false" s with
  | Some r => Scanned (JBool false) r
  | None =>
  match scan_number cap s with
  | Scanned v r => Scanned v r
  | Refused why => Refused why
  | Malformed =>
  if strict then Malformed else
  match strip_prefix "NaN" s with
  | Some r => Scanned (JFloat "NaN") r
  | None =>
  match strip_prefix "Infinity" s with
  | Some r => Scanned (JFloat "Infinity") r
  | None =>
  match strip_prefix "-Infinity" s with
  | Some r => Scanned (JFloat "-Infinity") r
  | None => Malformed
  end end end end end end end.

(** One value at the head of [s], and what follows it.  [scan_members]
    reads the members of an object from the opening quote of a key on, into
    the dictionary [acc]; [scan_items] reads the items of an array from the
    start of an item on.  [room] is the number of containers the decoder can
    still enter, one inside the other: entering one more is a
    [RecursionError].  Every call made consumes a character first, so fuel
    above the length of the text is never used up. *)
Fixpoint scan_once (fuel room : nat) (s : string) : scanned :=
  match fuel with
  | O => Malformed
  | S f =>
      match s with
      | String "{" r =>
          match room with
          | O => Refused TooDeep
          | S room' =>
              match skip_ws r with
              | String "}" r' => Scanned (JObject []) r'
              | r' => scan_members f room' r' []
              end
          end
      | String "[" r =>
          match room with
          | O => Refused TooDeep
          | S room' =>
              match skip_ws r with
              | String "]" r' => Scanned (JArray []) r'
              | r' => scan_items f room' r' []
              end
          end
      | String c r =>
          if Ascii.eqb c dquote then
            match scanstring (String.length r) r with
            | Some (t, r') => Scanned (JString t) r'
            | None => Malformed
            end
          else scan_atom s
      | EmptyString => Malformed
      end
  end

with scan_members (fuel room : nat) (s : string) (acc : Dict.t) : scanned :=
  match fuel with
  | O => Malformed
  | S f =>
      match s with
      | String c r =>
          if Ascii.eqb c dquote then
            match scanstring (String.length r) r with
            | None => Malformed
            | Some (key, r1) =>
                match skip_ws r1 with
                | String ":" r2 =>
                    match scan_once f room (skip_ws r2) with
                    | Scanned v r3 =>
                        let acc' := Dict.set acc key v in
                        match skip_ws r3 with
                        | String "}" r4 => Scanned (JObject acc') r4
                        | String "," r4 =>
                            scan_members f room (skip_ws r4) acc'
                        | _ => Malformed
                        end
                    | stop => stop
                    end
                | _ => Malformed
                end
            end
          else Malformed
      | EmptyString => Malformed
      end
  end

with scan_items (fuel room : nat) (s : string) (acc : list json) : scanned :=
  match fuel with
  | O => Malformed
  | S f =>
      match scan_once f room s with
      | Scanned v r =>
          match skip_ws r with
          | String "]" r' => Scanned (JArray (List.app acc [v])) r'
          | String "," r' => scan_items f room (skip_ws r') (List.app acc [v])
          | _ => Malformed
          end
      | stop => stop
      end
  end.

End Scanner.

(** What decoding a text ends in. *)
Inductive decoded : Type :=
| Decoded (v : json)
| Undecodable
| Stopped (why : limit).

(** [JSONDecoder.decode]: one value, white space allowed around it, and
    nothing else. *)
Definition decode (strict : bool) (room : nat) (cap : Z) (s : string)
  : decoded :=
  match scan_once strict cap (2 * String.length s + 2) room (skip_ws s) with
  | Scanned v r =>
      match skip_ws r with
      | EmptyString => Decoded v
      | String _ _ => Undecodable
      end
  | Malformed => Undecodable
  | Refused why => Stopped why
  end.

End JsonDecoder.

(** [json.loads(s)]. *)
Definition json_loads (rt : Runtime) (s : string) : result json :=
  match JsonDecoder.decode false (S (json_nesting rt)) (int_max_str_digits rt)
          s with
  | JsonDecoder.Decoded v => Ok v
  | JsonDecoder.Undecodable =>
      Raise (mkExn JSONDecodeError (json_error_text rt s))
  | JsonDecoder.Stopped JsonDecoder.TooDeep =>
      Raise (mkExn RecursionError (json_error_text rt s))
  | JsonDecoder.Stopped JsonDecoder.TooLong =>
      Raise (mkExn ValueError (json_error_text rt s))
  end.

(* ================================================================== *)
(** ** [eval] on arithmetic text

    [handle_tools_call] hands a string to [eval] only when all its characters
    are among [0123456789+-*/(). ].  Over that alphabet Python's expression
    grammar leaves: integer and float literals, the ellipsis, the empty tuple,
    grouping, unary [+ -], binary [+ - * / // **], and calls with at most one
    argument.  This module is that fragment of the language.  Integer
    arithmetic is evaluated here, for sources that stay clear of the limits
    of the interpreter: at most 64 tokens, and numbers of at most 640 digits,
    written or computed.  A source that is longer, that computes a longer
    number or that computes with floats is left to [eval_other]. *)

Module PyEval.

Inductive token : Type :=
| TInt (n : Z)
| TFloat
| TLeadingZeros              (* [007]: rejected by the tokenizer *)
| TLong                      (* an integer of more than 640 digits *)
| TPlus | TMinus | TStar | TDoubleStar | TSlash | TDoubleSlash
| TLParen | TRParen | TDot | TEllipsis
| TForeign.                  (* a character outside the alphabet *)

Fixpoint all_zero (s : string) : bool :=
  match s with
  | EmptyString => true
  | String c s' => Ascii.eqb c "0" && all_zero s'
  end.

(** The token at the head of a text that starts with a digit: a run of
    digits is a float when a point follows (with the digits after it), an
    integer otherwise, which may not begin with [0] unless it is zero. *)
Definition number_token (s : string) : token * string :=
  let (ds, r) := take_digits s in
  match r with
  | String "." r' => (TFloat, snd (take_digits r'))
  | _ =>
      if (640 <? String.length ds)%nat then (TLong, r)
      else
        match ds with
        | String "0" _ =>
            if all_zero ds then (TInt 0, r) else (TLeadingZeros, r)
        | _ => (TInt (digits_value 0 ds), r)
        end
  end.

Fixpoint tokenize (fuel : nat) (s : string) : list token :=
  match fuel with
  | O => [TForeign]
  | S f =>
      match s with
      | EmptyString => []
      | String " " r => tokenize f r
      | String "+" r => TPlus :: tokenize f r
      | String "-" r => TMinus :: tokenize f r
      | String "(" r => TLParen :: tokenize f r
      | String ")" r => TRParen :: tokenize f r
      | String "*" (String "*" r) => TDoubleStar :: tokenize f r
      | String "*" r => TStar :: tokenize f r
      | String "/" (String "/" r) => TDoubleSlash :: tokenize f r
      | String "/" r => TSlash :: tokenize f r
      | String "." (String "." (String "." r)) => TEllipsis :: tokenize f r
      | String "." r =>
          match r with
          | String c _ =>
              if is_digit c
              then TFloat :: tokenize f (snd (take_digits r))
              else TDot :: tokenize f r
          | EmptyString => [TDot]
          end
      | String c r =>
          if is_digit c
          then let (t, r') := number_token s in t :: tokenize f r'
          else TForeign :: tokenize f r
      end
  end.

Inductive unop : Type := UPlus | UMinus.
Inductive binop : Type := Add | Sub | Mul | Div | FloorDiv | Pow.

(** How the one argument of a call is passed: [f(e)], [f( *e)], [f( **e)]. *)
Inductive arg_kind : Type := Positional | Star | DoubleStar.

Inductive expr : Type :=
| ENum (n : Z)
| EFloat
| EEllipsis
| ETuple0
| EUn (op : unop) (e : expr)
| EBin (op : binop) (l r : expr)
| ECall (f : expr) (arg : option (arg_kind * expr)).

(** The outcome of a parsing function: what it read and the tokens left,
    a syntax error, or no answer for want of fuel. *)
Inductive parsed (A : Type) : Type :=
| Parsed (a : A) (rest : list token)
| SyntaxErr
| OutOfFuel.

Arguments Parsed {A} a rest.
Arguments SyntaxErr {A}.
Arguments OutOfFuel {A}.

Definition pbind {A B : Type} (m : parsed A)
  (k : A -> list token -> parsed B) : parsed B :=
  match m with
  | Parsed a rest => k a rest
  | SyntaxErr => SyntaxErr
  | OutOfFuel => OutOfFuel
  end.

Definition expect_rparen {A : Type} (a : A) (ts : list token) : parsed A :=
  match ts with
  | TRParen :: r => Parsed a r
  | _ => SyntaxErr
  end.

(** The grammar, one function per rule:
<<
    sum     ::= term (("+" | "-") term)*
    term    ::= factor (("*" | "/" | "//") factor)*
    factor  ::= ("+" | "-") factor | power
    power   ::= primary ["**" factor]
    primary ::= atom ("(" [["*" | "**"] sum] ")")*
    atom    ::= INT | FLOAT | "..." | "(" ")" | "(" sum ")"
>>
*)
Fixpoint parse_sum (fuel : nat) (ts : list token) : parsed expr :=
  match fuel with
  | O => OutOfFuel
  | S f => pbind (parse_term f ts) (sum_rest f)
  end

with sum_rest (fuel : nat) (lhs : expr) (ts : list token) : parsed expr :=
  match fuel with
  | O => OutOfFuel
  | S f =>
      match ts with
      | TPlus :: r =>
          pbind (parse_term f r) (fun rhs => sum_rest f (EBin Add lhs rhs))
      | TMinus :: r =>
          pbind (parse_term f r) (fun rhs => sum_rest f (EBin Sub lhs rhs))
      | _ => Parsed lhs ts
      end
  end

with parse_term (fuel : nat) (ts : list token) : parsed expr :=
  match fuel with
  | O => OutOfFuel
  | S f => pbind (parse_factor f ts) (term_rest f)
  end

with term_rest (fuel : nat) (lhs : expr) (ts : list token) : parsed expr :=
  match fuel with
  | O => OutOfFuel
  | S f =>
      match ts with
      | TStar :: r =>
          pbind (parse_factor f r) (fun rhs => term_rest f (EBin Mul lhs rhs))
      | TSlash :: r =>
          pbind (parse_factor f r) (fun rhs => term_rest f (EBin Div lhs rhs))
      | TDoubleSlash :: r =>
          pbind (parse_factor f r)
            (fun rhs => term_rest f (EBin FloorDiv lhs rhs))
      | _ => Parsed lhs ts
      end
  end

with parse_factor (fuel : nat) (ts : list token) : parsed expr :=
  match fuel with
  | O => OutOfFuel
  | S f =>
      match ts with
      | TPlus :: r =>
          pbind (parse_factor f r) (fun e rest => Parsed (EUn UPlus e) rest)
      | TMinus :: r =>
          pbind (parse_factor f r) (fun e rest => Parsed (EUn UMinus e) rest)
      | _ => parse_power f ts
      end
  end

with parse_power (fuel : nat) (ts : list token) : parsed expr :=
  match fuel with
  | O => OutOfFuel
  | S f =>
      pbind (parse_primary f ts)
        (fun base rest =>
           match rest with
           | TDoubleStar :: r =>
               pbind (parse_factor f r)
                 (fun e rest' => Parsed (EBin Pow base e) rest')
           | _ => Parsed base rest
           end)
  end

with parse_primary (fuel : nat) (ts : list token) : parsed expr :=
  match fuel with
  | O => OutOfFuel
  | S f => pbind (parse_atom f ts) (trailers f)
  end

with trailers (fuel : nat) (callee : expr) (ts : list token) : parsed expr :=
  match fuel with
  | O => OutOfFuel
  | S f =>
      match ts with
      | TLParen :: TRParen :: r => trailers f (ECall callee None) r
      | TLParen :: TStar :: r =>
          pbind (pbind (parse_sum f r) expect_rparen)
            (fun a => trailers f (ECall callee (Some (Star, a))))
      | TLParen :: TDoubleStar :: r =>
          pbind (pbind (parse_sum f r) expect_rparen)
            (fun a => trailers f (ECall callee (Some (DoubleStar, a))))
      | TLParen :: r =>
          pbind (pbind (parse_sum f r) expect_rparen)
            (fun a => trailers f (ECall callee (Some (Positional, a))))
      | _ => Parsed callee ts
      end
  end

with parse_atom (fuel : nat) (ts : list token) : parsed expr :=
  match fuel with
  | O => OutOfFuel
  | S f =>
      match ts with
      | TInt n :: r => Parsed (ENum n) r
      | TFloat :: r => Parsed EFloat r
      | TEllipsis :: r => Parsed EEllipsis r
      | TLParen :: TRParen :: r => Parsed ETuple0 r
      | TLParen :: r => pbind (parse_sum f r) expect_rparen
      | _ => SyntaxErr
      end
  end.

(** A whole source: one [sum] and nothing after it. *)
Definition parse (ts : list token) : parsed expr :=
  pbind (parse_sum (8 * List.length ts + 8) ts)
    (fun e rest =>
       match rest with
       | [] => Parsed e []
       | _ :: _ => SyntaxErr
       end).

(** The values integer arithmetic stays in. *)
Inductive value : Type :=
| VInt (n : Z)
| VTuple0                    (* [()] *)
| VEllipsis.

(** [str(v)]. *)
Definition str_value (v : value) : string :=
  match v with
  | VInt n => string_of_Z n
  | VTuple0 => "()"
  | VEllipsis => "Ellipsis"
  end.

(** What evaluating an expression comes to: a value, a fault, or a
    computation that left the integers ([Beyond]), which is not followed
    further. *)
Inductive outcome : Type :=
| Value (v : value)
| Fault (e : eval_fault)
| Beyond.

(** An integer of at most 640 digits, and any other as [Beyond]. *)
Definition int_value (n : Z) : outcome :=
  if Z.abs n <? 10 ^ 640 then Value (VInt n) else Beyond.

Definition eval_unop (op : unop) (v : value) : outcome :=
  match v with
  | VInt n =>
      match op with
      | UPlus => int_value n
      | UMinus => int_value (- n)
      end
  | _ => Fault EType
  end.

(** [() * n]: the empty tuple again, when [n] is small enough to be a
    repetition count on every platform. *)
Definition repeat_tuple0 (n : Z) : outcome :=
  if (- 2 ^ 31 <=? n) && (n <? 2 ^ 31) then Value VTuple0 else Beyond.

Definition eval_binop (op : binop) (a b : value) : outcome :=
  match op, a, b with
  | Add, VInt x, VInt y => int_value (x + y)
  | Add, VTuple0, VTuple0 => Value VTuple0
  | Sub, VInt x, VInt y => int_value (x - y)
  | Mul, VInt x, VInt y => int_value (x * y)
  | Mul, VTuple0, VInt n => repeat_tuple0 n
  | Mul, VInt n, VTuple0 => repeat_tuple0 n
  | Div, VInt x, VInt y => if y =? 0 then Fault EZeroDiv else Beyond
  | FloorDiv, VInt x, VInt y =>
      if y =? 0 then Fault EZeroDiv else int_value (x / y)
  | Pow, VInt x, VInt y =>
      if 0 <=? y then
        (* above 2200 the power of anything but 0, 1 and -1 is longer than
           640 digits *)
        if (2200 <? y) && (1 <? Z.abs x) then Beyond else int_value (x ^ y)
      else if x =? 0 then Fault EZeroDiv
      else Beyond
  | _, _, _ => Fault EType
  end.

(** Operands are evaluated left to right, a callee before its argument;
    nothing in this fragment is callable, so a call that gets as far as
    calling faults. *)
Fixpoint eval_expr (e : expr) : outcome :=
  match e with
  | ENum n => int_value n
  | EFloat => Beyond
  | EEllipsis => Value VEllipsis
  | ETuple0 => Value VTuple0
  | EUn op e1 =>
      match eval_expr e1 with
      | Value v => eval_unop op v
      | o => o
      end
  | EBin op l r =>
      match eval_expr l with
      | Value a =>
          match eval_expr r with
          | Value b => eval_binop op a b
          | o => o
          end
      | o => o
      end
  | ECall f arg =>
      match eval_expr f with
      | Value _ =>
          match arg with
          | None => Fault EType
          | Some (_, a) =>
              match eval_expr a with
              | Value _ => Fault EType
              | o => o
              end
          end
      | o => o
      end
  end.

Definition is_foreign (t : token) : bool :=
  match t with
  | TForeign => true
  | _ => false
  end.

Definition is_long (t : token) : bool :=
  match t with
  | TLong => true
  | _ => false
  end.

(** From source text to outcome. *)
Definition run (s : string) : outcome :=
  let ts := tokenize (S (String.length s)) s in
  if existsb is_foreign ts || existsb is_long ts
     || (64 <? List.length ts)%nat
  then Beyond
  else
    match parse ts with
    | Parsed e _ => eval_expr e
    | SyntaxErr => Fault ESyntax
    | OutOfFuel => Beyond
    end.

End PyEval.

Definition fault_class (f : eval_fault) : exn_class :=
  match f with
  | ESyntax => SyntaxError
  | EType => TypeError
  | EZeroDiv => ZeroDivisionError
  | EOverflow => OverflowError
  | ERecursion => RecursionError
  | EValue => ValueError
  end.

(** What [eval] returns: a value computed here, or one known by its [str]
    only. *)
Inductive evaluated : Type :=
| Exact (v : PyEval.value)
| Described (text : string).

(** [str(r)], which is what [f"{r}"] inserts.  An integer computed here has
    at most 640 digits (lemma [evaluated_integers_are_short]), fewer than any
    cap on conversions applies to; a longer one is known by its [str] only,
    or by the fault of the conversion. *)
Definition str_evaluated (r : evaluated) : string :=
  match r with
  | Exact v => PyEval.str_value v
  | Described text => text
  end.

(** [eval(s)] for a string [s]. *)
Definition py_eval (rt : Runtime) (s : string) : result evaluated :=
  let raise f := Raise (mkExn (fault_class f) (eval_error_text rt s)) in
  match PyEval.run s with
  | PyEval.Value v => Ok (Exact v)
  | PyEval.Fault f => raise f
  | PyEval.Beyond =>
      match eval_other rt s with
      | inl text => Ok (Described text)
      | inr f => raise f
      end
  end.

(* ================================================================== *)
(** ** [class MCPServer] *)

Definition newline : string := String (ascii_of_nat 10) "".

Module MCPServer.

Record t : Type := mk {
  tools : Dict.t;
  resources : Dict.t
}.

(** [__init__]. *)
Definition init : t := {|
  tools :=
    [("get_weather",
      JObject
        [("name", JString "get_weather");
         ("description", JString "Get current weather for a city");
         ("inputSchema",
          JObject
            [("type", JString "object");
             ("properties",
              JObject
                [("city",
                  JObject [("type", JString "string");
                           ("description", JString "City name")])]);
             ("required", JArray [JString "city"])])]);
     ("calculate",
      JObject
        [("name", JString "calculate");
         ("description", JString "Perform basic arithmetic calculations");
         ("inputSchema",
          JObject
            [("type", JString "object");
             ("properties",
              JObject
                [("expression",
                  JObject
                    [("type", JString "string");
                     ("description",
                      JString
                        "Mathematical expression to evaluate (e.g., '2 + 3 * 4')")])]);
             ("required", JArray [JString "expression"])])])];
  resources :=
    [("file://notes.txt",
      JObject
        [("uri", JString "file://notes.txt");
         ("name", JString "Personal Notes");
         ("description", JString "A simple text file with personal notes");
         ("mimeType", JString "text/plain")])]
|}.

(** The characters of [set("0123456789+-*/(). ")]. *)
Definition allowed_chars : string := "0123456789+-*/(). ".

Definition allowed_char (c : ascii) : bool :=
  existsb (Ascii.eqb c) (list_ascii_of_string allowed_chars).

Fixpoint all_allowed (s : string) : bool :=
  match s with
  | EmptyString => true
  | String c s' => allowed_char c && all_allowed s'
  end.

(** [c in allowed_chars] for an element [c] of a container: a string is a
    member when it is one allowed character; the other hashable values are
    not members; a [list] or a [dict] cannot be hashed. *)
Definition element_allowed (c : json) : result bool :=
  match c with
  | JString (String a EmptyString) => Ok (allowed_char a)
  | JArray _ | JObject _ =>
      Raise (mkExn TypeError ("unhashable type: '" ++ type_name c ++ "'"))
  | _ => Ok false
  end.

(** [all(c in allowed_chars for c in items)], which stops at the first
    element that is not a member. *)
Fixpoint all_elements_allowed (items : list json) : result bool :=
  match items with
  | [] => Ok true
  | c :: items' =>
      b <- element_allowed c ;;
      if b then all_elements_allowed items' else Ok false
  end.

(** [all(c in allowed_chars for c in expression)]: over the characters of a
    string, the items of a list, the keys of a dict; nothing else can be
    iterated. *)
Definition all_in_allowed_chars (expression : json) : result bool :=
  match expression with
  | JString s => Ok (all_allowed s)
  | JArray items => all_elements_allowed items
  | JObject fields => all_elements_allowed (map JString (Dict.keys fields))
  | _ =>
      Raise (mkExn TypeError
               ("'" ++ type_name expression ++ "' object is not iterable"))
  end.

(** [eval(expression)]. *)
Definition eval (rt : Runtime) (expression : json) : result evaluated :=
  match expression with
  | JString s => py_eval rt s
  | _ =>
      Raise (mkExn TypeError
               "eval() arg 1 must be a string, bytes or code object")
  end.

(** The dict [weather_data] of [handle_tools_call]. *)
Record weather : Type := mkWeather {
  w_city : json;
  w_temperature : string;
  w_condition : string;
  w_humidity : string;
  w_timestamp : string
}.

Section Handlers.

Variable rt : Runtime.
Variable self : t.

(** The reading of the clock a [datetime.now()] made while this request
    is handled returns. *)
Variable now : datetime.

Definition handle_initialize (msg_id params : json) : json :=
  JObject
    [("jsonrpc", JString "2.0");
     ("id", msg_id);
     ("result",
      JObject
        [("protocolVersion", JString "2024-11-05");
         ("capabilities",
          JObject [("tools", JObject []); ("resources", JObject [])]);
         ("serverInfo",
          JObject [("name", JString "example-mcp-server");
                   ("version", JString "1.0.0")])])].

Definition handle_tools_list (msg_id : json) : json :=
  JObject
    [("jsonrpc", JString "2.0");
     ("id", msg_id);
     ("result", JObject [("tools", JArray (Dict.values (tools self)))])].

Definition handle_tools_call (msg_id params : json) : result json :=
  tool_name <- py_get params "name" JNull ;;
  arguments <- py_get params "arguments" (JObject []) ;;
  if eq_str tool_name "get_weather" then
    city <- py_get arguments "city" (JString "Unknown") ;;
    let weather_data :=
      {| w_city := city;
         w_temperature := "22Â°C";
         w_condition := "Sunny";
         w_humidity := "65%";
         w_timestamp := isoformat now |} in
    Ok (JObject
          [("jsonrpc", JString "2.0");
           ("id", msg_id);
           ("result",
            JObject
              [("content",
                JArray
                  [JObject
                     [("type", JString "text");
                      ("text",
                       JString
                         ("Weather in " ++ py_str rt city ++ ": "
                          ++ w_condition weather_data ++ ", "
                          ++ w_temperature weather_data ++ ", Humidity: "
                          ++ w_humidity weather_data))]])])])
  else if eq_str tool_name "calculate" then
    expression <- py_get arguments "expression" (JString "") ;;
    let attempt :=
      ok <- all_in_allowed_chars expression ;;
      _ <- (if negb ok
            then Raise (mkExn ValueError "Invalid characters in expression")
            else Ok tt) ;;
      result <- eval rt expression ;;
      Ok (JObject
            [("jsonrpc", JString "2.0");
             ("id", msg_id);
             ("result",
              JObject
                [("content",
                  JArray
                    [JObject
                       [("type", JString "text");
                        ("text",
                         JString
                           (py_str rt expression ++ " = "
                            ++ str_evaluated result))]])])]) in
    match attempt with
    | Ok response => Ok response
    | Raise e =>
        if is_Exception e then
          Ok (JObject
                [("jsonrpc", JString "2.0");
                 ("id", msg_id);
                 ("error",
                  JObject
                    [("code", JInt (-32602));
                     ("message",
                      JString ("Calculation error: " ++ exn_msg e))])])
        else Raise e
    end
  else
    Ok (JObject
          [("jsonrpc", JString "2.0");
           ("id", msg_id);
           ("error",
            JObject
              [("code", JInt (-32602));
               ("message",
                JString ("Unknown tool: " ++ py_str rt tool_name))])]).

Definition handle_resources_list (msg_id : json) : json :=
  JObject
    [("jsonrpc", JString "2.0");
     ("id", msg_id);
     ("result",
      JObject [("resources", JArray (Dict.values (resources self)))])].

Definition handle_resources_read (msg_id params : json) : result json :=
  uri <- py_get params "uri" JNull ;;
  if eq_str uri "file://notes.txt" then
    let notes_content :=
      "Personal Notes" ++ newline
      ++ "===============" ++ newline
      ++ newline
      ++ "1. Remember to buy groceries" ++ newline
      ++ "2. Call dentist for appointment" ++ newline
      ++ "3. Finish MCP server project" ++ newline
      ++ "4. Review quarterly reports" ++ newline
      ++ newline
      ++ "Last updated: " ++ strftime_ymd_hms now in
    Ok (JObject
          [("jsonrpc", JString "2.0");
           ("id", msg_id);
           ("result",
            JObject
              [("contents",
                JArray
                  [JObject
                     [("uri", uri);
                      ("mimeType", JString "text/plain");
                      ("text", JString notes_content)]])])])
  else
    Ok (JObject
          [("jsonrpc", JString "2.0");
           ("id", msg_id);
           ("error",
            JObject
              [("code", JInt (-32602));
               ("message",
                JString ("Resource not found: " ++ py_str rt uri))])]).

(** The body of the [try] of [handle_message]. *)
Definition dispatch (message : json) : result json :=
  method <- py_get message "method" JNull ;;
  params <- py_get message "params" (JObject []) ;;
  msg_id <- py_get message "id" JNull ;;
  if eq_str method "initialize" then
    Ok (handle_initialize msg_id params)
  else if eq_str method "tools/list" then
    Ok (handle_tools_list msg_id)
  else if eq_str method "tools/call" then
    handle_tools_call msg_id params
  else if eq_str method "resources/list" then
    Ok (handle_resources_list msg_id)
  else if eq_str method "resources/read" then
    handle_resources_read msg_id params
  else
    Ok (JObject
          [("jsonrpc", JString "2.0");
           ("id", msg_id);
           ("error",
            JObject
              [("code", JInt (-32601));
               ("message",
                JString ("Method not found: " ++ py_str rt method))])]).

Definition handle_message (message : json) : result json :=
  match dispatch message with
  | Ok response => Ok response
  | Raise e =>
      if is_Exception e then
        msg_id <- py_get message "id" JNull ;;
        Ok (JObject
              [("jsonrpc", JString "2.0");
               ("id", msg_id);
               ("error",
                JObject
                  [("code", JInt (-32603));
                   ("message",
                    JString ("Internal error: " ++ exn_msg e))])])
      else Raise e
  end.

End Handlers.

End MCPServer.

(* ================================================================== *)
(** ** [main]

    Standard input is the list of the lines [readline] will return, each with
    its line end; [readline] returns the empty string when none is left.  A
    line [print(json.dumps(v))] writes to standard output is kept as the value
    [v] it serialises. *)

Record world : Type := mkWorld {
  stdout : list json;
  stderr : list string
}.

Definition print_stdout (v : json) (w : world) : world :=
  {| stdout := List.app (stdout w) [v]; stderr := stderr w |}.

Definition print_stderr (s : string) (w : world) : world :=
  {| stdout := stdout w; stderr := List.app (stderr w) [s] |}.

Inductive control : Type := Continue | Break.

Section Main.

Variable rt : Runtime.

(** One pass through the body of [while True], for the [line] that
    [readline] returned; [k] counts the passes made before. *)
Definition iteration (server : MCPServer.t) (k : nat) (line : string)
  (w : world) : control * world :=
  if String.eqb line "" then (Break, w)
  else
    let attempt :=
      message <- json_loads rt (py_strip line) ;;
      MCPServer.handle_message rt server (clock rt k) message in
    match attempt with
    | Ok response => (Continue, print_stdout response w)
    | Raise e =>
        if is_JSONDecodeError e then
          let error_response :=
            JObject
              [("jsonrpc", JString "2.0");
               ("error",
                JObject
                  [("code", JInt (-32700));
                   ("message", JString ("Parse error: " ++ exn_msg e))])] in
          (Continue, print_stdout error_response w)
        else
          match exn_cls e with
          | KeyboardInterrupt => (Break, w)
          | _ => (Break, print_stderr ("Unexpected error: " ++ exn_msg e) w)
          end
    end.

(** The loop, from its [k]-th pass on: what is left unread when it ends,
    and the output. *)
Fixpoint loop (server : MCPServer.t) (k : nat) (stdin : list string)
  (w : world) : list string * world :=
  match stdin with
  | [] => ([], w)
  | line :: rest =>
      match iteration server k line w with
      | (Continue, w') => loop server (S k) rest w'
      | (Break, w') => (rest, w')
      end
  end.

Definition banner : list string :=
  ["MCP Server starting...";
   "Server capabilities:";
   "- Tools: get_weather, calculate";
   "- Resources: file://notes.txt";
   "Ready for connections."].

Definition main (stdin : list string) : list string * world :=
  let server := MCPServer.init in
  loop server 0 stdin {| stdout := []; stderr := banner |}.

End Main.

(* ================================================================== *)
(** ** Reading responses *)

(** The member [k] of a response or of any other object. *)
Definition member (v : json) (k : string) : option json :=
  match v with
  | JObject d => Dict.lookup d k
  | _ => None
  end.

(** The response is an error with this code and this message. *)
Definition is_error (response : json) (code : Z) (message : string) : Prop :=
  member response "error"
  = Some (JObject [("code", JInt code); ("message", JString message)])
  /\ member response "result" = None.

(** The code of the error of a response. *)
Definition error_code (response : json) : option json :=
  match member response "error" with
  | Some e => member e "code"
  | None => None
  end.

(** A [{type: "text", text}] content block. *)
Definition text_block (text : string) : json :=
  JObject [("type", JString "text"); ("text", JString text)].

(** Exactly one of the members [result] and [error]. *)
Definition result_xor_error (response : json) : Prop :=
  (member response "result" <> None /\ member response "error" = None)
  \/ (member response "result" = None /\ member response "error" <> None).

(** A runtime to run examples with: a frozen clock, the texts CPython 3.11
    gives for the faults of the examples (a line that does not start a JSON
    value, an expression cut short, the empty expression, a division by
    zero), its default limits, and placeholders for what the examples never
    ask. *)
Definition sample_runtime : Runtime := {|
  clock := fun _ => mkDatetime "2024-11-05T12:00:00" "2024-11-05 12:00:00";
  float_repr := fun lit => lit;
  str_repr := fun s => "'" ++ s ++ "'";
  json_error_text := fun _ => "Expecting value: line 1 column 1 (char 0)";
  eval_error_text :=
    fun s =>
      if String.eqb s "1/0" then "division by zero"
      else if String.eqb s "" then "invalid syntax (<string>, line 0)"
      else "invalid syntax (<string>, line 1)";
  eval_other := fun _ => inr EType;
  int_max_str_digits := 4300;
  json_nesting := 900
|}.

(* ================================================================== *)
(** ** Vocabulary of the specification *)

(** The fixed set of method names. *)
Definition methods : list string :=
  ["initialize"; "tools/list"; "tools/call"; "resources/list";
   "resources/read"].

(** [v] is one of the strings of [names]. *)
Definition among (names : list string) (v : json) : bool :=
  existsb (eq_str v) names.

Definition known_method : json -> bool := among methods.

(** The names in the tool registry and the URIs in the resource registry. *)
Definition registered_tool : json -> bool :=
  among (Dict.keys (MCPServer.tools MCPServer.init)).

Definition registered_resource : json -> bool :=
  among (Dict.keys (MCPServer.resources MCPServer.init)).

(** The response is a result whose content is this one text block. *)
Definition is_text_result (response : json) (text : string) : Prop :=
  member response "result"
  = Some (JObject [("content", JArray [text_block text])])
  /\ member response "error" = None.

(** The declared list of required arguments of a registered tool. *)
Definition required_arguments (tool : string) : option json :=
  match Dict.lookup (MCPServer.tools MCPServer.init) tool with
  | Some descriptor =>
      match member descriptor "inputSchema" with
      | Some schema => member schema "required"
      | None => None
      end
  | None => None
  end.

Module Spec.

(** The arithmetic the specification asks of the evaluator, in its words:
    "numbers, [+ - * /], parentheses".  An expression of that grammar is
    one Python parses using nothing but numbers, signs, the four operators
    and grouping. *)
Fixpoint basic_arithmetic (e : PyEval.expr) : bool :=
  match e with
  | PyEval.ENum _ | PyEval.EFloat => true
  | PyEval.EUn _ e1 => basic_arithmetic e1
  | PyEval.EBin op l r =>
      match op with
      | PyEval.Add | PyEval.Sub | PyEval.Mul | PyEval.Div =>
          basic_arithmetic l && basic_arithmetic r
      | PyEval.FloorDiv | PyEval.Pow => false
      end
  | PyEval.EEllipsis | PyEval.ETuple0 | PyEval.ECall _ _ => false
  end.

Definition well_formed_arithmetic (s : string) : bool :=
  match PyEval.parse (PyEval.tokenize (S (String.length s)) s) with
  | PyEval.Parsed e _ => basic_arithmetic e
  | _ => false
  end.






(** JSON as its grammar defines it: what the decoder accepts when it is
    strict about the constants and no limit stops it. *)
Definition valid_json (text : string) : bool :=
  match JsonDecoder.decode true (String.length text) 0 text with
  | JsonDecoder.Decoded _ => true
  | _ => false
  end.

End Spec.

(** ** Example requests *)

Definition quoted (s : string) : string :=
  String (ascii_of_nat 34) s ++ String (ascii_of_nat 34) "".

(** A request line: a JSON object written out from its members. *)
Definition object_text (members : list (string * string)) : string :=
  "{" ++ join ", " (map (fun kv => quoted (fst kv) ++ ": " ++ snd kv) members)
      ++ "}".

Definition line (text : string) : string := text ++ newline.

(** [{"jsonrpc": "2.0", "id": <id>, "method": "initialize"}] *)
Definition initialize_line (id : string) : string :=
  line (object_text [("jsonrpc", quoted "2.0"); ("id", id);
                     ("method", quoted "initialize")]).

(** A [tools/call] of [calculate], decoded. *)
Definition calculate_request (id : json) (expression : string) : json :=
  JObject
    [("jsonrpc", JString "2.0");
     ("id", id);
     ("method", JString "tools/call");
     ("params",
      JObject
        [("name", JString "calculate");
         ("arguments", JObject [("expression", JString expression)])])].

(** A well-formed envelope: it echoes [msg_id] and has one of [result] and
    [error]. *)
Definition envelope_for (msg_id response : json) : Prop :=
  member response "id" = Some msg_id /\ result_xor_error response.

(** The response to a line that does not decode. *)
Definition parse_error_response (rt : Runtime) (text : string) : json :=
  JObject
    [("jsonrpc", JString "2.0");
     ("error",
      JObject
        [("code", JInt (-32700));
         ("message", JString ("Parse error: " ++ json_error_text rt text))])].

(** [json.loads] rejects the text as malformed. *)
Definition undecodable (rt : Runtime) (text : string) : Prop :=
  exists e, json_loads rt text = Raise e /\ is_JSONDecodeError e = true.

(** A line is served when it is not empty and either fails to decode or
    decodes to an object. *)
Definition servable (rt : Runtime) (l : string) : Prop :=
  l <> ""
  /\ (undecodable rt (py_strip l)
      \/ exists d, json_loads rt (py_strip l) = Ok (JObject d)).


(** The response [handle_message] makes of a fault [e]. *)
Definition internal_error (msg_id : json) (e : exn) : json :=
  JObject
    [("jsonrpc", JString "2.0");
     ("id", msg_id);
     ("error",
      JObject
        [("code", JInt (-32603));
         ("message", JString ("Internal error: " ++ exn_msg e))])].

(** [{"jsonrpc": "2.0", "method": "initialize"}], decoded. *)
Definition request_without_id : json :=
  JObject [("jsonrpc", JString "2.0"); ("method", JString "initialize")].

(** ** Vocabulary of the further properties *)

(** The error codes of the handlers. *)
Definition handler_error_codes : list Z := [-32601; -32602; -32603].

(** The error codes of the server: those of the handlers and the parse error
    of [main]. *)
Definition error_codes : list Z := -32700 :: handler_error_codes.

(** An error object with one of the codes [codes]. *)
Definition error_object (codes : list Z) (v : json) : Prop :=
  exists code message,
    v = JObject [("code", JInt code); ("message", JString message)]
    /\ In code codes.

(** The shape of what a handler returns: the members [jsonrpc], [id] and
    then either [result] or [error], in this order and no other. *)
Definition handler_response (msg_id response : json) : Prop :=
  (exists payload,
     response
     = JObject [("jsonrpc", JString "2.0"); ("id", msg_id);
                ("result", payload)])
  \/ (exists err,
        response
        = JObject [("jsonrpc", JString "2.0"); ("id", msg_id); ("error", err)]
        /\ error_object handler_error_codes err).

(** What the server writes for the line [l] it reads on pass [k], when it
    serves it. *)
Definition answer_to (rt : Runtime) (server : MCPServer.t) (k : nat)
  (l : string) (response : json) : Prop :=
  (undecodable rt (py_strip l)
   /\ response = parse_error_response rt (py_strip l))
  \/ (exists d,
        json_loads rt (py_strip l) = Ok (JObject d)
        /\ MCPServer.handle_message rt server (clock rt k) (JObject d)
           = Ok response).

(** A line of standard output: a handler's response, or the parse error. *)
Definition wire_response (response : json) : Prop :=
  (exists msg_id, handler_response msg_id response)
  \/ (exists message,
        response
        = JObject
            [("jsonrpc", JString "2.0");
             ("error",
              JObject [("code", JInt (-32700));
                       ("message", JString message)])]).

(** A line of white space: spaces, tabs, carriage returns, line feeds. *)
Fixpoint blank (l : string) : bool :=
  match l with
  | EmptyString => true
  | String c l' => JsonDecoder.is_ws c && blank l'
  end.

(** What a listing response lists: the member [field] of each item of the
    list [key] of its result. *)
Definition listed (key field : string) (response : json) : list json :=
  match member response "result" with
  | Some r =>
      match member r key with
      | Some (JArray items) =>
          map (fun item =>
                 match member item field with
                 | Some v => v
                 | None => JNull
                 end) items
      | _ => []
      end
  | None => []
  end.

(** The fault of calling [get] on a value that has no such method. *)
Definition no_get (v : json) : exn :=
  mkExn AttributeError ("'" ++ type_name v ++ "' object has no attribute 'get'").

(* ================================================================== *)
(** * Properties *)

(** ** Faults *)

Lemma py_get_object (d : Dict.t) (k : string) (default : json) :
  py_get (JObject d) k default = Ok (Dict.get_default d k default).
Proof. reflexivity. Qed.

Lemma py_get_raises (v : json) (k : string) (default : json) (e : exn) :
  py_get v k default = Raise e -> exn_cls e = AttributeError.
Proof.
  destruct v; simpl; intros H; inversion H; reflexivity.
Qed.

Lemma py_eval_raises (rt : Runtime) (s : string) (e : exn) :
  py_eval rt s = Raise e -> is_Exception e = true.
Proof.
  unfold py_eval.
  destruct (PyEval.run s) as [v | f | ].
  - discriminate.
  - intros H; inversion H; destruct f; reflexivity.
  - destruct (eval_other rt s) as [text | f]; [discriminate | ].
    intros H; inversion H; destruct f; reflexivity.
Qed.

Lemma element_allowed_raises (c : json) (e : exn) :
  MCPServer.element_allowed c = Raise e -> is_Exception e = true.
Proof.
  destruct c as [ | | | | s | | ]; simpl; try discriminate;
    try (intros H; inversion H; reflexivity).
  destruct s as [ | a [ | ] ]; discriminate.
Qed.

Lemma all_elements_allowed_raises (items : list json) (e : exn) :
  MCPServer.all_elements_allowed items = Raise e -> is_Exception e = true.
Proof.
  induction items as [ | c items IH]; simpl; [discriminate | ].
  destruct (MCPServer.element_allowed c) as [b | e'] eqn:Hc; simpl.
  - destruct b; [exact IH | discriminate].
  - intros H; inversion H; subst. eapply element_allowed_raises; eauto.
Qed.

Lemma all_in_allowed_chars_raises (expression : json) (e : exn) :
  MCPServer.all_in_allowed_chars expression = Raise e -> is_Exception e = true.
Proof.
  destruct expression; simpl; try discriminate;
    try (intros H; inversion H; reflexivity);
    apply all_elements_allowed_raises.
Qed.

Lemma eval_raises (rt : Runtime) (expression : json) (e : exn) :
  MCPServer.eval rt expression = Raise e -> is_Exception e = true.
Proof.
  destruct expression; simpl; try (intros H; inversion H; reflexivity).
  apply py_eval_raises.
Qed.

(** ** Envelopes *)

Lemma result_envelope (msg_id payload : json) :
  envelope_for msg_id
    (JObject [("jsonrpc", JString "2.0"); ("id", msg_id); ("result", payload)]).
Proof.
  split; [reflexivity | ]. left. split; [discriminate | reflexivity].
Qed.

Lemma error_envelope (msg_id err : json) :
  envelope_for msg_id
    (JObject [("jsonrpc", JString "2.0"); ("id", msg_id); ("error", err)]).
Proof.
  split; [reflexivity | ]. right. split; [reflexivity | discriminate].
Qed.

Create HintDb envelope.
#[local] Hint Resolve result_envelope error_envelope : envelope.

Ltac ok_inv H := inversion H; subst; clear H; auto with envelope.

Section HandlerShape.

Variable rt : Runtime.
Variable self : MCPServer.t.
Variable now : datetime.

Lemma handle_tools_call_envelope (msg_id params response : json) :
  MCPServer.handle_tools_call rt now msg_id params = Ok response ->
  envelope_for msg_id response.
Proof.
  unfold MCPServer.handle_tools_call.
  destruct (py_get params "name" JNull) as [tool_name | ]; simpl; [ | discriminate].
  destruct (py_get params "arguments" (JObject [])) as [arguments | ]; simpl;
    [ | discriminate].
  destruct (eq_str tool_name "get_weather").
  - destruct (py_get arguments "city" (JString "Unknown")); simpl;
      [ | discriminate].
    intros H; ok_inv H.
  - destruct (eq_str tool_name "calculate"); [ | intros H; ok_inv H].
    destruct (py_get arguments "expression" (JString "")) as [expression | ];
      simpl; [ | discriminate].
    destruct (MCPServer.all_in_allowed_chars expression) as [[ | ] | e1]; simpl.
    + destruct (MCPServer.eval rt expression) as [r | e2]; simpl.
      * intros H; ok_inv H.
      * destruct (is_Exception e2); [ | discriminate]. intros H; ok_inv H.
    + intros H; ok_inv H.
    + destruct (is_Exception e1); [ | discriminate]. intros H; ok_inv H.
Qed.

Lemma handle_tools_call_raises (msg_id params : json) (e : exn) :
  MCPServer.handle_tools_call rt now msg_id params = Raise e ->
  is_Exception e = true.
Proof.
  unfold MCPServer.handle_tools_call.
  destruct (py_get params "name" JNull) as [tool_name | e0] eqn:Hn; simpl.
  2: { intros H; inversion H; subst. apply py_get_raises in Hn.
       unfold is_Exception; rewrite Hn; reflexivity. }
  destruct (py_get params "arguments" (JObject [])) as [arguments | e0] eqn:Ha;
    simpl.
  2: { intros H; inversion H; subst. apply py_get_raises in Ha.
       unfold is_Exception; rewrite Ha; reflexivity. }
  destruct (eq_str tool_name "get_weather").
  - destruct (py_get arguments "city" (JString "Unknown")) as [ | e0] eqn:Hc;
      simpl; [discriminate | ].
    intros H; inversion H; subst. apply py_get_raises in Hc.
    unfold is_Exception; rewrite Hc; reflexivity.
  - destruct (eq_str tool_name "calculate"); [ | discriminate].
    destruct (py_get arguments "expression" (JString "")) as [expression | e0]
      eqn:He; simpl.
    2: { intros H; inversion H; subst. apply py_get_raises in He.
         unfold is_Exception; rewrite He; reflexivity. }
    destruct (MCPServer.all_in_allowed_chars expression) as [[ | ] | e1] eqn:H1;
      simpl.
    + destruct (MCPServer.eval rt expression) as [r | e2] eqn:H2; simpl;
        [discriminate | ].
      rewrite (eval_raises _ _ _ H2). discriminate.
    + discriminate.
    + rewrite (all_in_allowed_chars_raises _ _ H1). discriminate.
Qed.

Lemma handle_resources_read_envelope (msg_id params response : json) :
  MCPServer.handle_resources_read rt now msg_id params = Ok response ->
  envelope_for msg_id response.
Proof.
  unfold MCPServer.handle_resources_read.
  destruct (py_get params "uri" JNull) as [uri | ]; simpl; [ | discriminate].
  destruct (eq_str uri "file://notes.txt"); intros H; ok_inv H.
Qed.

Lemma handle_resources_read_raises (msg_id params : json) (e : exn) :
  MCPServer.handle_resources_read rt now msg_id params = Raise e ->
  is_Exception e = true.
Proof.
  unfold MCPServer.handle_resources_read.
  destruct (py_get params "uri" JNull) as [uri | e0] eqn:Hu; simpl.
  - destruct (eq_str uri "file://notes.txt"); discriminate.
  - intros H; inversion H; subst. apply py_get_raises in Hu.
    unfold is_Exception; rewrite Hu; reflexivity.
Qed.

(** What [dispatch] does with an object, method by method. *)
Lemma dispatch_object (d : Dict.t) :
  let method := Dict.get_default d "method" JNull in
  let params := Dict.get_default d "params" (JObject []) in
  let msg_id := Dict.get_default d "id" JNull in
  MCPServer.dispatch rt self now (JObject d) =
    if eq_str method "initialize" then
      Ok (MCPServer.handle_initialize msg_id params)
    else if eq_str method "tools/list" then
      Ok (MCPServer.handle_tools_list self msg_id)
    else if eq_str method "tools/call" then
      MCPServer.handle_tools_call rt now msg_id params
    else if eq_str method "resources/list" then
      Ok (MCPServer.handle_resources_list self msg_id)
    else if eq_str method "resources/read" then
      MCPServer.handle_resources_read rt now msg_id params
    else
      Ok (JObject
            [("jsonrpc", JString "2.0");
             ("id", msg_id);
             ("error",
              JObject
                [("code", JInt (-32601));
                 ("message",
                  JString ("Method not found: " ++ py_str rt method))])]).
Proof. reflexivity. Qed.

Lemma dispatch_envelope (d : Dict.t) (response : json) :
  MCPServer.dispatch rt self now (JObject d) = Ok response ->
  envelope_for (Dict.get_default d "id" JNull) response.
Proof.
  rewrite dispatch_object.
  unfold MCPServer.handle_initialize, MCPServer.handle_tools_list,
    MCPServer.handle_resources_list.
  repeat match goal with
         | |- context [if ?b then _ else _] => destruct b
         end;
    try (intros H; ok_inv H; fail).
  - apply handle_tools_call_envelope.
  - apply handle_resources_read_envelope.
Qed.

Lemma dispatch_raises (d : Dict.t) (e : exn) :
  MCPServer.dispatch rt self now (JObject d) = Raise e ->
  is_Exception e = true.
Proof.
  rewrite dispatch_object.
  repeat match goal with
         | |- context [if ?b then _ else _] => destruct b
         end;
    try discriminate.
  - apply handle_tools_call_raises.
  - apply handle_resources_read_raises.
Qed.

(** An object always gets a response, and the response is an envelope for
    the object's [id]. *)
Lemma handle_message_object (d : Dict.t) :
  exists response,
    MCPServer.handle_message rt self now (JObject d) = Ok response
    /\ envelope_for (Dict.get_default d "id" JNull) response.
Proof.
  unfold MCPServer.handle_message.
  destruct (MCPServer.dispatch rt self now (JObject d)) as [r | e] eqn:Hd.
  - exists r. split; [reflexivity | ]. now apply dispatch_envelope.
  - rewrite (dispatch_raises _ _ Hd). simpl.
    eexists. split; [reflexivity | ]. auto with envelope.
Qed.

(** Anything else gets none: the handler of the fault faults again. *)
Lemma handle_message_not_object (message : json) :
  (forall d, message <> JObject d) ->
  MCPServer.handle_message rt self now message =
    Raise (mkExn AttributeError
             ("'" ++ type_name message ++ "' object has no attribute 'get'")).
Proof.
  intros Hno. destruct message; try reflexivity.
  exfalso. eapply Hno. reflexivity.
Qed.

Lemma handle_message_ok (message response : json) :
  MCPServer.handle_message rt self now message = Ok response ->
  exists d, message = JObject d
            /\ envelope_for (Dict.get_default d "id" JNull) response.
Proof.
  destruct message as [ | | | | | | d]; try discriminate.
  intros H. exists d. split; [reflexivity | ].
  destruct (handle_message_object d) as [r [Hr He]].
  rewrite Hr in H. inversion H; subst. exact He.
Qed.

End HandlerShape.

(** ** The loop *)

Section LoopFacts.

Variable rt : Runtime.
Variable server : MCPServer.t.

Lemma nonempty_eqb (s : string) : s <> "" -> String.eqb s "" = false.
Proof. intros H. apply String.eqb_neq. exact H. Qed.

(** Whatever [json.loads] raises, its message is the one the runtime
    gives for the text. *)
Lemma json_loads_message (text : string) (e : exn) :
  json_loads rt text = Raise e -> exn_msg e = json_error_text rt text.
Proof.
  unfold json_loads.
  destruct (JsonDecoder.decode false (S (json_nesting rt))
              (int_max_str_digits rt) text);
    try destruct why; intros H; inversion H; reflexivity.
Qed.

(** A pass on a line [json.loads] raises on: a [JSONDecodeError] is
    answered, anything else ends the loop. *)
Lemma iteration_raise (k : nat) (l : string) (w : world) (e : exn) :
  l <> "" ->
  json_loads rt (py_strip l) = Raise e ->
  iteration rt server k l w
  = if is_JSONDecodeError e then
      (Continue,
       print_stdout
         (JObject
            [("jsonrpc", JString "2.0");
             ("error",
              JObject
                [("code", JInt (-32700));
                 ("message", JString ("Parse error: " ++ exn_msg e))])]) w)
    else
      match exn_cls e with
      | KeyboardInterrupt => (Break, w)
      | _ => (Break, print_stderr ("Unexpected error: " ++ exn_msg e) w)
      end.
Proof.
  intros Hl Hd. unfold iteration.
  rewrite (nonempty_eqb _ Hl), Hd. reflexivity.
Qed.

Lemma iteration_undecodable (k : nat) (l : string) (w : world) :
  l <> "" ->
  undecodable rt (py_strip l) ->
  iteration rt server k l w
  = (Continue, print_stdout (parse_error_response rt (py_strip l)) w).
Proof.
  intros Hl [e [Hd He]].
  rewrite (iteration_raise k l w e Hl Hd), He.
  unfold parse_error_response. rewrite (json_loads_message _ _ Hd).
  reflexivity.
Qed.

Lemma iteration_object (k : nat) (l : string) (w : world) (d : Dict.t) :
  l <> "" ->
  json_loads rt (py_strip l) = Ok (JObject d) ->
  exists response,
    MCPServer.handle_message rt server (clock rt k) (JObject d) = Ok response
    /\ iteration rt server k l w = (Continue, print_stdout response w).
Proof.
  intros Hl Hd.
  destruct (handle_message_object rt server (clock rt k) d) as [r [Hr _]].
  exists r. split; [exact Hr | ].
  unfold iteration.
  rewrite (nonempty_eqb _ Hl), Hd. simpl. rewrite Hr. reflexivity.
Qed.

Lemma iteration_not_object (k : nat) (l : string) (w : world) (v : json) :
  l <> "" ->
  json_loads rt (py_strip l) = Ok v ->
  (forall d, v <> JObject d) ->
  iteration rt server k l w
  = (Break,
     print_stderr
       ("Unexpected error: '" ++ type_name v
        ++ "' object has no attribute 'get'") w).
Proof.
  intros Hl Hd Hv. unfold iteration.
  rewrite (nonempty_eqb _ Hl), Hd. simpl.
  rewrite (handle_message_not_object rt server (clock rt k) v Hv).
  reflexivity.
Qed.

(** A pass writes at most one line to standard output, after those
    written before. *)
Lemma iteration_stdout (k : nat) (l : string) (w : world) :
  stdout (snd (iteration rt server k l w)) = stdout w
  \/ exists response,
       stdout (snd (iteration rt server k l w))
       = List.app (stdout w) [response]
       /\ result_xor_error response.
Proof.
  unfold iteration.
  destruct (String.eqb l ""); [left; reflexivity | ].
  destruct (json_loads rt (py_strip l)) as [v | e0] eqn:Hd; simpl.
  - destruct (MCPServer.handle_message rt server (clock rt k) v)
      as [r | e] eqn:Hm.
    + right. exists r. split; [reflexivity | ].
      apply handle_message_ok in Hm. destruct Hm as [d [_ [_ Hx]]]. exact Hx.
    + destruct (is_JSONDecodeError e).
      * right. eexists. split; [reflexivity | ].
        right. split; [reflexivity | discriminate].
      * destruct (exn_cls e); left; reflexivity.
  - destruct (is_JSONDecodeError e0).
    + right. eexists. split; [reflexivity | ].
      right. split; [reflexivity | discriminate].
    + destruct (exn_cls e0); left; reflexivity.
Qed.

Lemma loop_stdout_invariant (stdin : list string) :
  forall (k : nat) (w : world),
    Forall result_xor_error (stdout w) ->
    Forall result_xor_error (stdout (snd (loop rt server k stdin w))).
Proof.
  induction stdin as [ | l rest IH]; intros k w Hw; simpl; [exact Hw | ].
  pose proof (iteration_stdout k l w) as Hit.
  destruct (iteration rt server k l w) as [c w'] eqn:Hi. simpl in Hit.
  assert (Hw' : Forall result_xor_error (stdout w')).
  { destruct Hit as [Heq | [r [Heq Hr]]]; rewrite Heq.
    - exact Hw.
    - apply Forall_app. split; [exact Hw | ]. constructor; [exact Hr | constructor]. }
  destruct c; [apply IH; exact Hw' | exact Hw'].
Qed.

Lemma iteration_servable (k : nat) (l : string) (w : world) :
  servable rt l ->
  exists response,
    iteration rt server k l w = (Continue, print_stdout response w).
Proof.
  intros [Hl [Hd | [d Hd]]].
  - eexists. apply iteration_undecodable; assumption.
  - destruct (iteration_object k l w d Hl Hd) as [r [_ Hr]]. eauto.
Qed.

(** Over servable lines the loop reads to the end and writes one line of
    output for each line of input. *)
Lemma loop_serves_every_line (stdin : list string) :
  Forall (servable rt) stdin ->
  forall (k : nat) (w : world),
    fst (loop rt server k stdin w) = []
    /\ List.length (stdout (snd (loop rt server k stdin w)))
       = (List.length (stdout w) + List.length stdin)%nat
    /\ stderr (snd (loop rt server k stdin w)) = stderr w.
Proof.
  induction 1 as [ | l rest Hl Hrest IH]; intros k w; simpl.
  - repeat split. lia.
  - destruct (iteration_servable k l w Hl) as [r Hr]. rewrite Hr.
    destruct (IH (S k) (print_stdout r w)) as [H1 [H2 H3]].
    repeat split; [exact H1 | | exact H3].
    rewrite H2. simpl. rewrite length_app. simpl. lia.
Qed.

End LoopFacts.

(** ** Routing *)

Section Routing.

Variable rt : Runtime.
Variable self : MCPServer.t.
Variable now : datetime.

Lemma lookup_get_default (d : Dict.t) (k : string) (v default : json) :
  Dict.lookup d k = Some v -> Dict.get_default d k default = v.
Proof. unfold Dict.get_default. intros ->. reflexivity. Qed.

Lemma handle_message_tools_call (d : Dict.t) :
  Dict.lookup d "method" = Some (JString "tools/call") ->
  MCPServer.handle_message rt self now (JObject d)
  = match MCPServer.handle_tools_call rt now
            (Dict.get_default d "id" JNull)
            (Dict.get_default d "params" (JObject [])) with
    | Ok response => Ok response
    | Raise e => Ok (internal_error (Dict.get_default d "id" JNull) e)
    end.
Proof.
  intros Hm. unfold MCPServer.handle_message.
  rewrite dispatch_object, (lookup_get_default _ _ _ JNull Hm). simpl.
  destruct (MCPServer.handle_tools_call rt now _ _) as [r | e] eqn:Hc;
    [reflexivity | ].
  rewrite (handle_tools_call_raises _ _ _ _ _ Hc). reflexivity.
Qed.

Lemma handle_message_resources_read (d : Dict.t) :
  Dict.lookup d "method" = Some (JString "resources/read") ->
  MCPServer.handle_message rt self now (JObject d)
  = match MCPServer.handle_resources_read rt now
            (Dict.get_default d "id" JNull)
            (Dict.get_default d "params" (JObject [])) with
    | Ok response => Ok response
    | Raise e => Ok (internal_error (Dict.get_default d "id" JNull) e)
    end.
Proof.
  intros Hm. unfold MCPServer.handle_message.
  rewrite dispatch_object, (lookup_get_default _ _ _ JNull Hm). simpl.
  destruct (MCPServer.handle_resources_read rt now _ _) as [r | e] eqn:Hc;
    [reflexivity | ].
  rewrite (handle_resources_read_raises _ _ _ _ _ Hc). reflexivity.
Qed.

Lemma among_cons_false (v : json) (name : string) (names : list string) :
  among (name :: names) v = false ->
  eq_str v name = false /\ among names v = false.
Proof. unfold among. simpl. apply orb_false_iff. Qed.

Lemma eq_str_true (v : json) (s : string) :
  eq_str v s = true -> v = JString s.
Proof.
  destruct v; simpl; try discriminate.
  intros H. apply String.eqb_eq in H. now subst.
Qed.

Lemma among_true (names : list string) (v : json) :
  among names v = true -> exists s, v = JString s /\ In s names.
Proof.
  unfold among. intros H. apply existsb_exists in H.
  destruct H as [s [Hin Hs]]. exists s. split; [now apply eq_str_true | exact Hin].
Qed.

(** What [handle_tools_call] answers for [calculate] when the expression is
    a string over the allowed characters. *)
Lemma calculate_allowed (msg_id : json) (dp da : Dict.t) (s : string) :
  Dict.get_default dp "name" JNull = JString "calculate" ->
  Dict.get_default dp "arguments" (JObject []) = JObject da ->
  Dict.get_default da "expression" (JString "") = JString s ->
  MCPServer.all_allowed s = true ->
  MCPServer.handle_tools_call rt now msg_id (JObject dp)
  = match py_eval rt s with
    | Ok r =>
        Ok (JObject
              [("jsonrpc", JString "2.0");
               ("id", msg_id);
               ("result",
                JObject
                  [("content",
                    JArray [text_block (s ++ " = " ++ str_evaluated r)])])])
    | Raise e =>
        Ok (JObject
              [("jsonrpc", JString "2.0");
               ("id", msg_id);
               ("error",
                JObject
                  [("code", JInt (-32602));
                   ("message",
                    JString ("Calculation error: " ++ exn_msg e))])])
    end.
Proof.
  intros Hn Ha He Hs. unfold MCPServer.handle_tools_call.
  rewrite !py_get_object, Hn, Ha. simpl.
  rewrite He. simpl. rewrite Hs. simpl.
  destruct (py_eval rt s) as [r | e] eqn:Hr; simpl; [reflexivity | ].
  rewrite (py_eval_raises _ _ _ Hr). reflexivity.
Qed.

(** A string with a character outside the allowed ones is refused before
    [eval] sees it. *)
Lemma calculate_rejects_foreign_characters
  (msg_id : json) (dp da : Dict.t) (s : string) :
  Dict.get_default dp "name" JNull = JString "calculate" ->
  Dict.get_default dp "arguments" (JObject []) = JObject da ->
  Dict.get_default da "expression" (JString "") = JString s ->
  MCPServer.all_allowed s = false ->
  MCPServer.handle_tools_call rt now msg_id (JObject dp)
  = Ok (JObject
          [("jsonrpc", JString "2.0");
           ("id", msg_id);
           ("error",
            JObject
              [("code", JInt (-32602));
               ("message",
                JString
                  "Calculation error: Invalid characters in expression")])]).
Proof.
  intros Hn Ha He Hs. unfold MCPServer.handle_tools_call.
  rewrite !py_get_object, Hn, Ha. simpl.
  rewrite He. simpl. rewrite Hs. reflexivity.
Qed.

Lemma get_weather_answer (msg_id : json) (dp da : Dict.t) :
  Dict.get_default dp "name" JNull = JString "get_weather" ->
  Dict.get_default dp "arguments" (JObject []) = JObject da ->
  MCPServer.handle_tools_call rt now msg_id (JObject dp)
  = Ok (JObject
          [("jsonrpc", JString "2.0");
           ("id", msg_id);
           ("result",
            JObject
              [("content",
                JArray
                  [text_block
                     ("Weather in "
                      ++ py_str rt
                           (Dict.get_default da "city" (JString "Unknown"))
                      ++ ": Sunny, 22Â°C, Humidity: 65%")])])]).
Proof.
  intros Hn Ha. unfold MCPServer.handle_tools_call.
  rewrite !py_get_object, Hn, Ha. reflexivity.
Qed.

Lemma unknown_tool_answer (msg_id : json) (dp : Dict.t) :
  registered_tool (Dict.get_default dp "name" JNull) = false ->
  MCPServer.handle_tools_call rt now msg_id (JObject dp)
  = Ok (JObject
          [("jsonrpc", JString "2.0");
           ("id", msg_id);
           ("error",
            JObject
              [("code", JInt (-32602));
               ("message",
                JString
                  ("Unknown tool: "
                   ++ py_str rt (Dict.get_default dp "name" JNull)))])]).
Proof.
  intros Hr. unfold registered_tool in Hr.
  change (Dict.keys (MCPServer.tools MCPServer.init))
    with ["get_weather"; "calculate"] in Hr.
  apply among_cons_false in Hr. destruct Hr as [H1 Hr].
  apply among_cons_false in Hr. destruct Hr as [H2 _].
  unfold MCPServer.handle_tools_call.
  rewrite !py_get_object. simpl. rewrite H1, H2. reflexivity.
Qed.

End Routing.

(** ** The evaluator and arithmetic *)





Lemma int_value_short (m n : Z) :
  PyEval.int_value m = PyEval.Value (PyEval.VInt n) ->
  Z.abs n < 10 ^ 640.
Proof.
  unfold PyEval.int_value.
  destruct (Z.abs m <? 10 ^ 640) eqn:Hm; intros H; inversion H; subst.
  now apply Z.ltb_lt.
Qed.

(** An integer the evaluator returns has at most 640 digits: no cap on
    conversions can refuse its [str]. *)
Lemma evaluated_integers_are_short (e : PyEval.expr) (n : Z) :
  PyEval.eval_expr e = PyEval.Value (PyEval.VInt n) ->
  Z.abs n < 10 ^ 640.
Proof.
  destruct e as [m | | | | op e1 | op l r | f arg]; simpl; try discriminate.
  - apply int_value_short.
  - destruct (PyEval.eval_expr e1) as [[x | | ] | | ]; try discriminate;
      destruct op; simpl; try discriminate; apply int_value_short.
  - destruct (PyEval.eval_expr l) as [[x | | ] | | ]; try discriminate;
      destruct (PyEval.eval_expr r) as [[y | | ] | | ]; try discriminate;
      destruct op; simpl; try discriminate;
      unfold PyEval.repeat_tuple0;
      repeat match goal with
             | |- context [if ?b then _ else _] => destruct b
             end;
      try discriminate; apply int_value_short.
  - destruct (PyEval.eval_expr f) as [v | | ]; try discriminate.
    destruct arg as [[k a] | ]; try discriminate.
    destruct (PyEval.eval_expr a); discriminate.
Qed.

(* ================================================================== *)
(** * The claims *)

(** C1 (the code departs from it).  The decoded message [5] is not an
    object: [message.get] faults in the [try] of [handle_message], and
    faults again in the [except] clause that was to report it.  No response
    with code -32603 is made; the fault reaches [main], which logs it and
    ends the loop with the lines after it unread. *)
Theorem fault_in_fault_handler_ends_loop
  (rt : Runtime) (now : datetime) (rest : list string) :
  MCPServer.handle_message rt MCPServer.init now (JInt 5)
  = Raise (mkExn AttributeError "'int' object has no attribute 'get'")
  /\ main rt (line "5" :: rest)
     = (rest,
        {| stdout := [];
           stderr :=
             List.app banner
               ["Unexpected error: 'int' object has no attribute 'get'"] |}).
Proof.
  split; [reflexivity | ].
  unfold main. cbn [loop].
  rewrite (iteration_not_object rt MCPServer.init 0 (line "5") _ (JInt 5)).
  - reflexivity.
  - discriminate.
  - reflexivity.
  - discriminate.
Qed.

(** C2 (the code departs from it).  [()] and [2**3] are made of allowed
    characters only and are not arithmetic over numbers, [+ - * /] and
    parentheses; [calculate] hands them to [eval] and answers with their
    values, an empty tuple and a power. *)
Theorem calculate_evaluates_more_than_arithmetic
  (rt : Runtime) (now : datetime) (id : json) :
  (MCPServer.all_allowed "()" = true
   /\ Spec.well_formed_arithmetic "()" = false
   /\ exists response,
        MCPServer.handle_message rt MCPServer.init now
          (calculate_request id "()") = Ok response
        /\ is_text_result response "() = ()")
  /\ (MCPServer.all_allowed "2**3" = true
      /\ Spec.well_formed_arithmetic "2**3" = false
      /\ exists response,
           MCPServer.handle_message rt MCPServer.init now
             (calculate_request id "2**3") = Ok response
           /\ is_text_result response "2**3 = 8").
Proof.
  split; (split; [reflexivity | split; [reflexivity | ] ]);
    (eexists; split; [reflexivity | split; reflexivity]).
Qed.

(** C3, as stated, fails: a request without [id] is answered with an [id]
    member, whose value is null; the member is not left out. *)
Lemma id_member_present_when_request_has_none :
  member request_without_id "id" = None
  /\ exists response,
       MCPServer.handle_message sample_runtime MCPServer.init
         (clock sample_runtime 0) request_without_id = Ok response
       /\ member response "id" = Some JNull
       /\ member response "id" <> None.
Proof.
  split; [reflexivity | ].
  eexists. split; [reflexivity | ]. split; [reflexivity | discriminate].
Qed.

(** C3 (amended).  A request whose method is in the fixed set gets a
    response from [handle_message], and the response has an [id] member: the
    request's identifier when the request supplied one, null when it supplied
    none. *)
Theorem response_echoes_request_id
  (rt : Runtime) (self : MCPServer.t) (now : datetime) (d : Dict.t)
  (method : json) :
  Dict.lookup d "method" = Some method ->
  known_method method = true ->
  exists response,
    MCPServer.handle_message rt self now (JObject d) = Ok response
    /\ (forall id, Dict.lookup d "id" = Some id ->
                   member response "id" = Some id)
    /\ (Dict.lookup d "id" = None -> member response "id" = Some JNull).
Proof.
  intros _ _.
  destruct (handle_message_object rt self now d) as [r [Hr [Hid _]]].
  exists r. split; [exact Hr | ].
  unfold Dict.get_default in Hid.
  split.
  - intros id Hlk. rewrite Hlk in Hid. exact Hid.
  - intros Hlk. rewrite Hlk in Hid. exact Hid.
Qed.

Lemma response_echoes_request_id_witness :
  (Dict.lookup [("method", JString "tools/list")] "method"
   = Some (JString "tools/list")
   /\ known_method (JString "tools/list") = true)
  /\ exists response,
       MCPServer.handle_message sample_runtime MCPServer.init
         (clock sample_runtime 0) (JObject [("method", JString "tools/list")])
       = Ok response
       /\ (forall id, Dict.lookup [("method", JString "tools/list")] "id"
                      = Some id ->
                      member response "id" = Some id)
       /\ (Dict.lookup [("method", JString "tools/list")] "id" = None ->
           member response "id" = Some JNull).
Proof.
  split; [split; reflexivity | ].
  apply (response_echoes_request_id sample_runtime MCPServer.init
           (clock sample_runtime 0) [("method", JString "tools/list")]
           (JString "tools/list")).
  - reflexivity.
  - reflexivity.
Defined.

(** C4, as stated, fails: the line [{"id": NaN, "method": "initialize"}] is
    not valid JSON, and it gets no parse error: the decoder accepts [NaN],
    and the line is answered as the [initialize] request it decodes to. *)
Lemma non_json_line_answered_as_request :
  Spec.valid_json
    (line (object_text [("id", "NaN"); ("method", quoted "initialize")]))
  = false
  /\ main sample_runtime
       [line (object_text [("id", "NaN"); ("method", quoted "initialize")])]
     = ([],
        {| stdout := [MCPServer.handle_initialize (JFloat "NaN") (JObject [])];
           stderr := banner |})
  /\ error_code (MCPServer.handle_initialize (JFloat "NaN") (JObject []))
     = None.
Proof. repeat split. Qed.

(** C4 (amended).  A line on which [json.loads] raises [JSONDecodeError]
    gets exactly one line of output, the error -32700 without [id] member
    and with the decoder's message; nothing goes to standard error, and the
    loop goes on with the lines after it. *)
Theorem undecodable_line_gets_parse_error
  (rt : Runtime) (server : MCPServer.t) (k : nat) (l : string)
  (rest : list string) (w : world) (e : exn) :
  l <> "" ->
  json_loads rt (py_strip l) = Raise e ->
  is_JSONDecodeError e = true ->
  loop rt server k (l :: rest) w
  = loop rt server (S k) rest
      {| stdout :=
           List.app (stdout w)
             [JObject
                [("jsonrpc", JString "2.0");
                 ("error",
                  JObject
                    [("code", JInt (-32700));
                     ("message", JString ("Parse error: " ++ exn_msg e))])]];
         stderr := stderr w |}.
Proof.
  intros Hl Hd He. cbn [loop].
  rewrite (iteration_raise rt server k l w e Hl Hd), He. reflexivity.
Qed.

Lemma undecodable_line_gets_parse_error_witness :
  (line "oops" <> ""
   /\ json_loads sample_runtime (py_strip (line "oops"))
      = Raise (mkExn JSONDecodeError
                 "Expecting value: line 1 column 1 (char 0)")
   /\ is_JSONDecodeError
        (mkExn JSONDecodeError "Expecting value: line 1 column 1 (char 0)")
      = true)
  /\ loop sample_runtime MCPServer.init 0 [line "oops"; initialize_line "7"]
       {| stdout := []; stderr := [] |}
     = loop sample_runtime MCPServer.init 1 [initialize_line "7"]
         {| stdout :=
              [JObject
                 [("jsonrpc", JString "2.0");
                  ("error",
                   JObject
                     [("code", JInt (-32700));
                      ("message",
                       JString
                         "Parse error: Expecting value: line 1 column 1 (char 0)")])]];
            stderr := [] |}.
Proof.
  split.
  - split; [discriminate | split; reflexivity].
  - apply (undecodable_line_gets_parse_error sample_runtime MCPServer.init 0
             (line "oops") [initialize_line "7"]
             {| stdout := []; stderr := [] |}
             (mkExn JSONDecodeError
                "Expecting value: line 1 column 1 (char 0)")).
    + discriminate.
    + reflexivity.
    + reflexivity.
Defined.

(** C5.  A request whose method is none of the five gets a response, never a
    fault: the error -32601, whose message ends with the method as [str]
    prints it, which for a string is the string itself. *)
Theorem unknown_method_not_found
  (rt : Runtime) (self : MCPServer.t) (now : datetime) (d : Dict.t) :
  known_method (Dict.get_default d "method" JNull) = false ->
  exists response,
    MCPServer.handle_message rt self now (JObject d) = Ok response
    /\ is_error response (-32601)
         ("Method not found: " ++ py_str rt (Dict.get_default d "method" JNull))
    /\ (forall name, Dict.lookup d "method" = Some (JString name) ->
                     is_error response (-32601) ("Method not found: " ++ name)).
Proof.
  intros Hk. unfold known_method, methods in Hk.
  repeat (apply among_cons_false in Hk; destruct Hk as [? Hk]).
  eexists. split.
  - unfold MCPServer.handle_message. rewrite dispatch_object.
    repeat match goal with
           | H : eq_str _ _ = false |- _ => rewrite H; clear H
           end.
    reflexivity.
  - split; [split; reflexivity | ].
    intros name Hn. rewrite (lookup_get_default _ _ _ JNull Hn).
    split; reflexivity.
Qed.

Lemma unknown_method_not_found_witness :
  known_method
    (Dict.get_default [("id", JInt 3); ("method", JString "tools/run")]
       "method" JNull) = false
  /\ exists response,
       MCPServer.handle_message sample_runtime MCPServer.init
         (clock sample_runtime 0)
         (JObject [("id", JInt 3); ("method", JString "tools/run")])
       = Ok response
       /\ is_error response (-32601)
            ("Method not found: "
             ++ py_str sample_runtime
                  (Dict.get_default
                     [("id", JInt 3); ("method", JString "tools/run")]
                     "method" JNull))
       /\ (forall name,
              Dict.lookup [("id", JInt 3); ("method", JString "tools/run")]
                "method" = Some (JString name) ->
              is_error response (-32601) ("Method not found: " ++ name)).
Proof.
  split; [reflexivity | ].
  apply (unknown_method_not_found sample_runtime MCPServer.init
           (clock sample_runtime 0)
           [("id", JInt 3); ("method", JString "tools/run")]).
  reflexivity.
Defined.




(** C7.  A [resources/read] request with an object for [params] (or none)
    gets a response.  When [params.uri] is not in the resource registry it is
    the error -32602 whose message is "Resource not found: " and the URI (for
    a URI that is no string, what [str] prints).  When it is the notes URI it
    is a result whose [contents] holds one entry, with the requested URI as
    [uri] and ["text/plain"] as [mimeType]. *)
Theorem resources_read_contract
  (rt : Runtime) (self : MCPServer.t) (now : datetime) (d dp : Dict.t) :
  Dict.lookup d "method" = Some (JString "resources/read") ->
  Dict.get_default d "params" (JObject []) = JObject dp ->
  exists response,
    MCPServer.handle_message rt self now (JObject d) = Ok response
    /\ (registered_resource (Dict.get_default dp "uri" JNull) = false ->
        is_error response (-32602)
          ("Resource not found: "
           ++ py_str rt (Dict.get_default dp "uri" JNull)))
    /\ (forall uri,
          Dict.lookup dp "uri" = Some (JString uri) ->
          registered_resource (JString uri) = false ->
          is_error response (-32602) ("Resource not found: " ++ uri))
    /\ (Dict.get_default dp "uri" JNull = JString "file://notes.txt" ->
        exists text,
          member response "result"
          = Some
              (JObject
                 [("contents",
                   JArray
                     [JObject
                        [("uri", Dict.get_default dp "uri" JNull);
                         ("mimeType", JString "text/plain");
                         ("text", JString text)]])])
          /\ member response "error" = None).
Proof.
  intros Hm Hp.
  destruct (handle_message_object rt self now d) as [response [Hr _]].
  exists response. split; [exact Hr | ].
  rewrite (handle_message_resources_read rt self now d Hm), Hp in Hr.
  unfold MCPServer.handle_resources_read in Hr.
  rewrite py_get_object in Hr. simpl in Hr.
  assert (Hno : forall u,
             Dict.get_default dp "uri" JNull = u ->
             registered_resource u = false ->
             is_error response (-32602)
               ("Resource not found: " ++ py_str rt u)).
  { intros u Hd Hu. unfold registered_resource in Hu.
    change (Dict.keys (MCPServer.resources MCPServer.init))
      with ["file://notes.txt"] in Hu.
    apply among_cons_false in Hu. destruct Hu as [Hu _].
    rewrite Hd, Hu in Hr. inversion Hr; subst. split; reflexivity. }
  split; [ | split].
  - intros Hu. exact (Hno _ eq_refl Hu).
  - intros uri Hl Hu.
    exact (Hno (JString uri) (lookup_get_default _ _ _ JNull Hl) Hu).
  - intros Hu. rewrite Hu in Hr |- *. simpl in Hr.
    inversion Hr; subst. eexists. split; reflexivity.
Qed.

Lemma resources_read_contract_witness :
  (Dict.lookup
     [("id", JString "r1"); ("method", JString "resources/read");
      ("params", JObject [("uri", JString "file://notes.txt")])]
     "method" = Some (JString "resources/read")
   /\ Dict.lookup [("uri", JString "file://other.txt")] "uri"
      = Some (JString "file://other.txt")
   /\ registered_resource (JString "file://other.txt") = false)
  /\ (exists response,
        MCPServer.handle_message sample_runtime MCPServer.init
          (clock sample_runtime 0)
          (JObject
             [("id", JString "r1"); ("method", JString "resources/read");
              ("params", JObject [("uri", JString "file://notes.txt")])])
        = Ok response
        /\ exists text,
             member response "result"
             = Some
                 (JObject
                    [("contents",
                      JArray
                        [JObject
                           [("uri", JString "file://notes.txt");
                            ("mimeType", JString "text/plain");
                            ("text", JString text)]])]))
  /\ (exists response,
        MCPServer.handle_message sample_runtime MCPServer.init
          (clock sample_runtime 0)
          (JObject
             [("id", JString "r2"); ("method", JString "resources/read");
              ("params", JObject [("uri", JString "file://other.txt")])])
        = Ok response
        /\ is_error response (-32602) "Resource not found: file://other.txt").
Proof.
  split; [split; [reflexivity | split; reflexivity] | ].
  split.
  - destruct (resources_read_contract sample_runtime MCPServer.init
                (clock sample_runtime 0)
                [("id", JString "r1"); ("method", JString "resources/read");
                 ("params", JObject [("uri", JString "file://notes.txt")])]
                [("uri", JString "file://notes.txt")] eq_refl eq_refl)
      as [response [Hr [_ [_ Hn]]]].
    exists response. split; [exact Hr | ].
    destruct (Hn eq_refl) as [text [Ht _]]. exists text. exact Ht.
  - destruct (resources_read_contract sample_runtime MCPServer.init
                (clock sample_runtime 0)
                [("id", JString "r2"); ("method", JString "resources/read");
                 ("params", JObject [("uri", JString "file://other.txt")])]
                [("uri", JString "file://other.txt")] eq_refl eq_refl)
      as [response [Hr [_ [Hu _]]]].
    exists response. split; [exact Hr | ].
    exact (Hu "file://other.txt" eq_refl eq_refl).
Defined.

(** C8 (the code departs from it).  Of three lines, a request, [null] and a
    request, the first is answered; the second decodes to a value that is
    not an object, on which [handle_message] faults past its own handler;
    [main] logs the fault and stops.  One line of output for three of input,
    and the third is never read. *)
Theorem non_object_line_ends_responses (rt : Runtime) :
  main rt [initialize_line "1"; line "null"; initialize_line "2"]
  = ([initialize_line "2"],
     {| stdout := [MCPServer.handle_initialize (JInt 1) (JObject [])];
        stderr :=
          List.app banner
            ["Unexpected error: 'NoneType' object has no attribute 'get'"] |})
  /\ List.length
       (stdout
          (snd (main rt [initialize_line "1"; line "null";
                         initialize_line "2"])))
     <> List.length [initialize_line "1"; line "null"; initialize_line "2"].
Proof.
  assert (H : main rt [initialize_line "1"; line "null"; initialize_line "2"]
              = ([initialize_line "2"],
                 {| stdout := [MCPServer.handle_initialize (JInt 1) (JObject [])];
                    stderr :=
                      List.app banner
                        ["Unexpected error: 'NoneType' object has no attribute 'get'"] |})).
  { unfold main. cbn [loop].
    destruct (iteration_object rt MCPServer.init 0 (initialize_line "1")
                {| stdout := []; stderr := banner |}
                [("jsonrpc", JString "2.0"); ("id", JInt 1);
                 ("method", JString "initialize")])
      as [r [Hr Hi]]; [discriminate | reflexivity | ].
    rewrite Hi. inversion Hr; subst r.
    rewrite (iteration_not_object rt MCPServer.init 1 (line "null") _ JNull);
      [reflexivity | discriminate | reflexivity | discriminate]. }
  split; [exact H | ]. rewrite H. simpl. discriminate.
Qed.

(** C9.  A response has exactly one of the members [result] and [error]:
    the response [handle_message] returns for a message, and every line
    [main] writes to standard output, parse errors included. *)
Theorem response_has_result_xor_error
  (rt : Runtime) (self : MCPServer.t) (now : datetime)
  (message response : json) (stdin : list string) :
  (MCPServer.handle_message rt self now message = Ok response ->
   result_xor_error response)
  /\ (In response (stdout (snd (main rt stdin))) ->
      result_xor_error response).
Proof.
  split.
  - intros H. apply handle_message_ok in H.
    destruct H as [d [_ [_ Hx]]]. exact Hx.
  - intros Hin.
    assert (Hall : Forall result_xor_error (stdout (snd (main rt stdin)))).
    { unfold main. apply loop_stdout_invariant. constructor. }
    rewrite Forall_forall in Hall. apply Hall. exact Hin.
Qed.

Lemma response_has_result_xor_error_witness :
  (MCPServer.handle_message sample_runtime MCPServer.init
     (clock sample_runtime 0) (calculate_request (JInt 1) "2 +")
   = Ok (JObject
           [("jsonrpc", JString "2.0");
            ("id", JInt 1);
            ("error",
             JObject
               [("code", JInt (-32602));
                ("message",
                 JString
                   "Calculation error: invalid syntax (<string>, line 1)")])])
   /\ In (JObject
            [("jsonrpc", JString "2.0");
             ("id", JInt 1);
             ("error",
              JObject
                [("code", JInt (-32602));
                 ("message",
                  JString
                    "Calculation error: invalid syntax (<string>, line 1)")])])
        (stdout
           (snd (main sample_runtime
                   [line "oops";
                    line (object_text
                            [("id", "1"); ("method", quoted "tools/call");
                             ("params",
                              object_text
                                [("name", quoted "calculate");
                                 ("arguments",
                                  object_text
                                    [("expression", quoted "2 +")])])])]))))
  /\ result_xor_error
       (JObject
          [("jsonrpc", JString "2.0");
           ("id", JInt 1);
           ("error",
            JObject
              [("code", JInt (-32602));
               ("message",
                JString
                  "Calculation error: invalid syntax (<string>, line 1)")])]).
Proof.
  split.
  - split; [reflexivity | ]. vm_compute. right. left. reflexivity.
  - apply (proj1 (response_has_result_xor_error sample_runtime MCPServer.init
                    (clock sample_runtime 0)
                    (calculate_request (JInt 1) "2 +") _ [])).
    reflexivity.
Defined.

(** C10.  The registry declares [city] a required argument of
    [get_weather], and a call without it is not refused: with no [city]
    among the arguments, or no arguments at all, the response is a text
    result about the city ["Unknown"]. *)
Theorem get_weather_without_city
  (rt : Runtime) (self : MCPServer.t) (now : datetime) (d dp : Dict.t) :
  Dict.lookup d "method" = Some (JString "tools/call") ->
  Dict.get_default d "params" (JObject []) = JObject dp ->
  Dict.lookup dp "name" = Some (JString "get_weather") ->
  (Dict.lookup dp "arguments" = None
   \/ exists da, Dict.lookup dp "arguments" = Some (JObject da)
                 /\ Dict.lookup da "city" = None) ->
  required_arguments "get_weather" = Some (JArray [JString "city"])
  /\ exists response,
       MCPServer.handle_message rt self now (JObject d) = Ok response
       /\ is_text_result response
            "Weather in Unknown: Sunny, 22Â°C, Humidity: 65%".
Proof.
  intros Hm Hp Hn Ha. split; [reflexivity | ].
  rewrite (handle_message_tools_call rt self now d Hm), Hp.
  assert (Hargs : exists da,
             Dict.get_default dp "arguments" (JObject []) = JObject da
             /\ Dict.lookup da "city" = None).
  { destruct Ha as [Ha | [da [Ha Hc]]].
    - exists []. unfold Dict.get_default. rewrite Ha. split; reflexivity.
    - exists da. split; [apply lookup_get_default; exact Ha | exact Hc]. }
  destruct Hargs as [da [Hda Hc]].
  rewrite (get_weather_answer rt now _ dp da
             (lookup_get_default _ _ _ JNull Hn) Hda).
  eexists. split; [reflexivity | ].
  unfold Dict.get_default. rewrite Hc. split; reflexivity.
Qed.

Lemma get_weather_without_city_witness :
  (Dict.lookup
     [("id", JInt 9); ("method", JString "tools/call");
      ("params", JObject [("name", JString "get_weather")])]
     "method" = Some (JString "tools/call")
   /\ Dict.lookup [("name", JString "get_weather")] "arguments" = None)
  /\ required_arguments "get_weather" = Some (JArray [JString "city"])
  /\ exists response,
       MCPServer.handle_message sample_runtime MCPServer.init
         (clock sample_runtime 0)
         (JObject
            [("id", JInt 9); ("method", JString "tools/call");
             ("params", JObject [("name", JString "get_weather")])])
       = Ok response
       /\ is_text_result response
            "Weather in Unknown: Sunny, 22Â°C, Humidity: 65%".
Proof.
  split; [split; reflexivity | ].
  apply (get_weather_without_city sample_runtime MCPServer.init
           (clock sample_runtime 0)
           [("id", JInt 9); ("method", JString "tools/call");
            ("params", JObject [("name", JString "get_weather")])]
           [("name", JString "get_weather")]).
  - reflexivity.
  - reflexivity.
  - reflexivity.
  - left. reflexivity.
Defined.

(* ================================================================== *)
(** * Further properties *)

Lemma result_shape (msg_id payload : json) :
  handler_response msg_id
    (JObject [("jsonrpc", JString "2.0"); ("id", msg_id); ("result", payload)]).
Proof. left. exists payload. reflexivity. Qed.

Lemma error_shape (msg_id : json) (code : Z) (message : string) :
  In code handler_error_codes ->
  handler_response msg_id
    (JObject
       [("jsonrpc", JString "2.0"); ("id", msg_id);
        ("error",
         JObject [("code", JInt code); ("message", JString message)])]).
Proof.
  intros Hc. right. eexists. split; [reflexivity | ].
  exists code, message. split; [reflexivity | exact Hc].
Qed.

Ltac shape_inv H :=
  inversion H; subst; clear H;
  first [ apply result_shape
        | apply error_shape; unfold handler_error_codes; simpl; tauto ].

Section ResponseShape.

Variable rt : Runtime.
Variable self : MCPServer.t.
Variable now : datetime.

Lemma handle_tools_call_shape (msg_id params response : json) :
  MCPServer.handle_tools_call rt now msg_id params = Ok response ->
  handler_response msg_id response.
Proof.
  unfold MCPServer.handle_tools_call.
  destruct (py_get params "name" JNull) as [tool_name | ]; simpl; [ | discriminate].
  destruct (py_get params "arguments" (JObject [])) as [arguments | ]; simpl;
    [ | discriminate].
  destruct (eq_str tool_name "get_weather").
  - destruct (py_get arguments "city" (JString "Unknown")); simpl;
      [ | discriminate].
    intros H; shape_inv H.
  - destruct (eq_str tool_name "calculate"); [ | intros H; shape_inv H].
    destruct (py_get arguments "expression" (JString "")) as [expression | ];
      simpl; [ | discriminate].
    destruct (MCPServer.all_in_allowed_chars expression) as [[ | ] | e1]; simpl.
    + destruct (MCPServer.eval rt expression) as [r | e2]; simpl.
      * intros H; shape_inv H.
      * destruct (is_Exception e2); [ | discriminate]. intros H; shape_inv H.
    + intros H; shape_inv H.
    + destruct (is_Exception e1); [ | discriminate]. intros H; shape_inv H.
Qed.

Lemma handle_resources_read_shape (msg_id params response : json) :
  MCPServer.handle_resources_read rt now msg_id params = Ok response ->
  handler_response msg_id response.
Proof.
  unfold MCPServer.handle_resources_read.
  destruct (py_get params "uri" JNull) as [uri | ]; simpl; [ | discriminate].
  destruct (eq_str uri "file://notes.txt"); intros H; shape_inv H.
Qed.

Lemma dispatch_shape (d : Dict.t) (response : json) :
  MCPServer.dispatch rt self now (JObject d) = Ok response ->
  handler_response (Dict.get_default d "id" JNull) response.
Proof.
  rewrite dispatch_object.
  unfold MCPServer.handle_initialize, MCPServer.handle_tools_list,
    MCPServer.handle_resources_list.
  repeat match goal with
         | |- context [if ?b then _ else _] => destruct b
         end;
    try (intros H; shape_inv H; fail).
  - apply handle_tools_call_shape.
  - apply handle_resources_read_shape.
Qed.

Lemma handle_message_shape (d : Dict.t) (response : json) :
  MCPServer.handle_message rt self now (JObject d) = Ok response ->
  handler_response (Dict.get_default d "id" JNull) response.
Proof.
  unfold MCPServer.handle_message.
  destruct (MCPServer.dispatch rt self now (JObject d)) as [r | e] eqn:Hd.
  - intros H. inversion H; subst. now apply dispatch_shape.
  - rewrite (dispatch_raises _ _ _ _ _ Hd). simpl. intros H. shape_inv H.
Qed.

End ResponseShape.

Section LoopMore.

Variable rt : Runtime.
Variable server : MCPServer.t.

(** The three ways a pass can end. *)
Lemma iteration_cases (k : nat) (l : string) (w : world) :
  (exists response,
     answer_to rt server k l response
     /\ iteration rt server k l w = (Continue, print_stdout response w))
  \/ iteration rt server k l w = (Break, w)
  \/ (exists message,
        iteration rt server k l w
        = (Break, print_stderr ("Unexpected error: " ++ message) w)).
Proof.
  unfold iteration.
  destruct (String.eqb l ""); [right; left; reflexivity | ].
  destruct (json_loads rt (py_strip l)) as [v | e0] eqn:Hd; simpl.
  - destruct (MCPServer.handle_message rt server (clock rt k) v)
      as [r | e] eqn:Hm.
    + left. exists r. split; [ | reflexivity].
      right. destruct (handle_message_ok _ _ _ _ _ Hm) as [d [Hv _]]. subst v.
      exists d. split; [exact Hd | exact Hm].
    + destruct v as [ | | | | | | d];
        try (simpl in Hm; inversion Hm; subst; simpl; right; right;
             eexists; reflexivity).
      destruct (handle_message_object rt server (clock rt k) d)
        as [r [Hr _]].
      rewrite Hr in Hm. discriminate.
  - destruct (is_JSONDecodeError e0) eqn:He.
    + left. exists (parse_error_response rt (py_strip l)).
      split; [left; split; [exists e0; split; assumption | reflexivity] | ].
      unfold parse_error_response.
      rewrite (json_loads_message rt _ _ Hd). reflexivity.
    + destruct (exn_cls e0);
        first [right; left; reflexivity
              | right; right; eexists; reflexivity].
Qed.

Lemma loop_cons_continue (k : nat) (l : string) (rest : list string)
  (w w' : world) :
  iteration rt server k l w = (Continue, w') ->
  loop rt server k (l :: rest) w = loop rt server (S k) rest w'.
Proof. intros H. cbn [loop]. rewrite H. reflexivity. Qed.

Lemma loop_cons_break (k : nat) (l : string) (rest : list string)
  (w w' : world) :
  iteration rt server k l w = (Break, w') ->
  loop rt server k (l :: rest) w = (rest, w').
Proof. intros H. cbn [loop]. rewrite H. reflexivity. Qed.

(** The loop only adds to standard output. *)
Lemma loop_stdout_extends (stdin : list string) :
  forall (k : nat) (w : world),
    exists extra,
      stdout (snd (loop rt server k stdin w)) = List.app (stdout w) extra.
Proof.
  induction stdin as [ | l rest IH]; intros k w.
  - exists []. simpl. now rewrite app_nil_r.
  - destruct (iteration_cases k l w) as [[r [_ Hi]] | [Hi | [m Hi]]].
    + rewrite (loop_cons_continue _ _ _ _ _ Hi).
      destruct (IH (S k) (print_stdout r w)) as [extra He].
      exists (r :: extra). rewrite He. simpl. now rewrite <- app_assoc.
    + rewrite (loop_cons_break _ _ _ _ _ Hi). exists []. simpl.
      now rewrite app_nil_r.
    + rewrite (loop_cons_break _ _ _ _ _ Hi). exists []. simpl.
      now rewrite app_nil_r.
Qed.

Lemma loop_stdout_prefix (a b : list string) :
  forall (k : nat) (w : world),
    exists extra,
      stdout (snd (loop rt server k (List.app a b) w))
      = List.app (stdout (snd (loop rt server k a w))) extra.
Proof.
  induction a as [ | l a IH]; intros k w.
  - simpl. apply loop_stdout_extends.
  - change (List.app (l :: a) b) with (l :: List.app a b).
    destruct (iteration_cases k l w) as [[r [_ Hi]] | [Hi | [m Hi]]].
    + rewrite !(loop_cons_continue _ _ _ _ _ Hi). apply IH.
    + rewrite !(loop_cons_break _ _ _ _ _ Hi). exists []. simpl.
      now rewrite app_nil_r.
    + rewrite !(loop_cons_break _ _ _ _ _ Hi). exists []. simpl.
      now rewrite app_nil_r.
Qed.

Lemma loop_counts (stdin : list string) :
  forall (k : nat) (w : world),
    (List.length (stdout (snd (loop rt server k stdin w)))
     + List.length (fst (loop rt server k stdin w))
     <= List.length (stdout w) + List.length stdin)%nat.
Proof.
  induction stdin as [ | l rest IH]; intros k w.
  - simpl. lia.
  - destruct (iteration_cases k l w) as [[r [_ Hi]] | [Hi | [m Hi]]].
    + rewrite (loop_cons_continue _ _ _ _ _ Hi).
      specialize (IH (S k) (print_stdout r w)). simpl in *.
      rewrite length_app in IH. simpl in IH. lia.
    + rewrite (loop_cons_break _ _ _ _ _ Hi). simpl. lia.
    + rewrite (loop_cons_break _ _ _ _ _ Hi). simpl. lia.
Qed.

Lemma loop_stdout_all (P : json -> Prop) (stdin : list string) :
  (forall k l response, answer_to rt server k l response -> P response) ->
  forall (k : nat) (w : world),
    Forall P (stdout w) ->
    Forall P (stdout (snd (loop rt server k stdin w))).
Proof.
  intros HP. induction stdin as [ | l rest IH]; intros k w Hw; [exact Hw | ].
  destruct (iteration_cases k l w) as [[r [Ha Hi]] | [Hi | [m Hi]]].
  - rewrite (loop_cons_continue _ _ _ _ _ Hi). apply IH. simpl.
    apply Forall_app. split; [exact Hw | ].
    constructor; [ | constructor]. eapply HP. exact Ha.
  - rewrite (loop_cons_break _ _ _ _ _ Hi). exact Hw.
  - rewrite (loop_cons_break _ _ _ _ _ Hi). exact Hw.
Qed.

Lemma answer_to_servable (k : nat) (l : string) (w : world) :
  servable rt l ->
  exists response,
    answer_to rt server k l response
    /\ iteration rt server k l w = (Continue, print_stdout response w).
Proof.
  intros [Hl [Hd | [d Hd]]].
  - eexists. split; [left; split; [exact Hd | reflexivity] | ].
    apply iteration_undecodable; assumption.
  - destruct (iteration_object rt server k l w d Hl Hd) as [r [Hr Hi]].
    exists r. split; [right; exists d; split; assumption | exact Hi].
Qed.

(** Over servable lines the loop goes through, and its [i]-th new line of
    output answers its [i]-th line of input. *)
Lemma loop_servable (stdin : list string) :
  Forall (servable rt) stdin ->
  forall (k : nat) (w : world),
    fst (loop rt server k stdin w) = []
    /\ stderr (snd (loop rt server k stdin w)) = stderr w
    /\ exists answers,
         stdout (snd (loop rt server k stdin w)) = List.app (stdout w) answers
         /\ List.length answers = List.length stdin
         /\ forall i l,
              nth_error stdin i = Some l ->
              exists response,
                nth_error answers i = Some response
                /\ answer_to rt server (k + i) l response.
Proof.
  induction 1 as [ | l rest Hl Hrest IH]; intros k w.
  - split; [reflexivity | ]. split; [reflexivity | ].
    exists []. simpl. rewrite app_nil_r. repeat split.
    intros i l Hi. destruct i; discriminate.
  - destruct (answer_to_servable k l w Hl) as [r [Ha Hi]].
    rewrite (loop_cons_continue _ _ _ _ _ Hi).
    destruct (IH (S k) (print_stdout r w)) as [H1 [H2 [answers [H3 [H4 H5]]]]].
    split; [exact H1 | ]. split; [exact H2 | ].
    exists (r :: answers). split; [ | split].
    + rewrite H3. simpl. now rewrite <- app_assoc.
    + simpl. now rewrite H4.
    + intros i l' Hn. destruct i as [ | i]; simpl in Hn.
      * inversion Hn; subst l'. exists r. split; [reflexivity | ].
        now rewrite Nat.add_0_r.
      * destruct (H5 i l' Hn) as [r' [Hr1 Hr2]]. exists r'.
        split; [exact Hr1 | ].
        replace (k + S i)%nat with (S k + i)%nat by lia. exact Hr2.
Qed.

(** Servable lines at the head of the input are served, and the loop goes on
    from there. *)
Lemma loop_app_servable (a : list string) :
  Forall (servable rt) a ->
  forall (b : list string) (k : nat) (w : world),
    loop rt server k (List.app a b) w
    = loop rt server (k + List.length a) b (snd (loop rt server k a w)).
Proof.
  induction 1 as [ | l a Hl Ha IH]; intros b k w.
  - simpl. now rewrite Nat.add_0_r.
  - change (List.app (l :: a) b) with (l :: List.app a b).
    destruct (answer_to_servable k l w Hl) as [r [_ Hi]].
    rewrite (loop_cons_continue k l (List.app a b) _ _ Hi).
    rewrite (loop_cons_continue k l a _ _ Hi).
    rewrite IH. cbn [List.length].
    replace (S k + List.length a)%nat with (k + S (List.length a))%nat by lia.
    reflexivity.
Qed.

End LoopMore.

Lemma answer_is_wire_response (rt : Runtime) (server : MCPServer.t) (k : nat)
  (l : string) (response : json) :
  answer_to rt server k l response -> wire_response response.
Proof.
  intros [[_ Hr] | [d [_ Hr]]].
  - right. subst response. eexists. reflexivity.
  - left. eexists. eapply handle_message_shape. exact Hr.
Qed.

Lemma wire_response_facts (response : json) :
  wire_response response ->
  member response "jsonrpc" = Some (JString "2.0")
  /\ result_xor_error response
  /\ (member response "error" = None
      \/ exists code,
           error_code response = Some (JInt code) /\ In code error_codes).
Proof.
  intros [[msg_id [[payload Hr] | [err [Hr [code [message [He Hc]]]]]]]
         | [message Hr]]; subst.
  - split; [reflexivity | ]. split.
    + left. split; [discriminate | reflexivity].
    + left. reflexivity.
  - split; [reflexivity | ]. split.
    + right. split; [reflexivity | discriminate].
    + right. exists code. split; [reflexivity | right; exact Hc].
  - split; [reflexivity | ]. split.
    + right. split; [reflexivity | discriminate].
    + right. exists (-32700). split; [reflexivity | left; reflexivity].
Qed.

Lemma is_ws_cases (c : ascii) :
  JsonDecoder.is_ws c = true ->
  c = ascii_of_nat 32 \/ c = ascii_of_nat 9 \/ c = ascii_of_nat 10
  \/ c = ascii_of_nat 13.
Proof.
  unfold JsonDecoder.is_ws. intros H.
  rewrite <- (ascii_nat_embedding c).
  repeat (apply orb_true_iff in H; destruct H as [H | H]);
    apply Nat.eqb_eq in H; rewrite H; tauto.
Qed.

Lemma strip_any_ws (c : ascii) (r : string) :
  JsonDecoder.is_ws c = true ->
  strip_any py_whitespace (String c r) = Some r.
Proof.
  intros H. destruct (is_ws_cases c H) as [-> | [-> | [-> | ->]]]; reflexivity.
Qed.

Lemma lstrip_blank (l : string) :
  blank l = true ->
  forall fuel, (String.length l <= fuel)%nat ->
               lstrip_fuel fuel py_whitespace l = "".
Proof.
  induction l as [ | c l IH]; intros Hb fuel Hf.
  - destruct fuel; reflexivity.
  - simpl in Hb. apply andb_true_iff in Hb. destruct Hb as [Hc Hl].
    destruct fuel as [ | fuel]; [simpl in Hf; lia | ].
    cbn [lstrip_fuel]. rewrite (strip_any_ws c l Hc).
    apply IH; [exact Hl | simpl in Hf; lia].
Qed.

(** The empty text is no JSON text. *)
Lemma undecodable_empty (rt : Runtime) : undecodable rt "".
Proof. eexists. split; reflexivity. Qed.

Lemma py_strip_blank (l : string) : blank l = true -> py_strip l = "".
Proof.
  intros Hb. unfold py_strip.
  rewrite (lstrip_blank l Hb (String.length l) (le_n _)). reflexivity.
Qed.

(** X20.  A line of white space only (an empty line of input is the
    line feed alone) is not skipped: it gets a parse-error response, the one
    for the empty text, and the loop goes on. *)
Theorem blank_line_gets_parse_error
  (rt : Runtime) (server : MCPServer.t) (k : nat) (l : string)
  (rest : list string) (w : world) :
  l <> "" ->
  blank l = true ->
  loop rt server k (l :: rest) w
  = loop rt server (S k) rest (print_stdout (parse_error_response rt "") w).
Proof.
  intros Hl Hb. apply loop_cons_continue.
  rewrite (iteration_undecodable rt server k l w Hl).
  - rewrite (py_strip_blank l Hb). reflexivity.
  - rewrite (py_strip_blank l Hb). apply undecodable_empty.
Qed.

Lemma blank_line_gets_parse_error_witness :
  (newline <> "" /\ blank newline = true)
  /\ loop sample_runtime MCPServer.init 0 [newline; initialize_line "1"]
       {| stdout := []; stderr := [] |}
     = loop sample_runtime MCPServer.init 1 [initialize_line "1"]
         (print_stdout (parse_error_response sample_runtime "")
            {| stdout := []; stderr := [] |}).
Proof.
  split; [split; [discriminate | reflexivity] | ].
  apply (blank_line_gets_parse_error sample_runtime MCPServer.init 0 newline
           [initialize_line "1"] {| stdout := []; stderr := [] |}).
  - discriminate.
  - reflexivity.
Defined.

(** X13.  When every line of the input is non-empty and either makes
    [json.loads] raise [JSONDecodeError] or decodes to an object, [main]
    reads the input to its end and writes one line per line read, in order:
    the [i]-th line written is the parse error for the [i]-th line read, or
    the response of [handle_message] to the object it decodes to. *)
Theorem servable_lines_answered_in_order (rt : Runtime) (stdin : list string) :
  Forall (servable rt) stdin ->
  fst (main rt stdin) = []
  /\ List.length (stdout (snd (main rt stdin))) = List.length stdin
  /\ forall i l,
       nth_error stdin i = Some l ->
       exists response,
         nth_error (stdout (snd (main rt stdin))) i = Some response
         /\ answer_to rt MCPServer.init i l response.
Proof.
  intros Hs. unfold main.
  destruct (loop_servable rt MCPServer.init stdin Hs 0
              {| stdout := []; stderr := banner |})
    as [H1 [H2 [answers [H3 [H4 H5]]]]].
  simpl in H3. rewrite H3.
  split; [exact H1 | ]. split; [exact H4 | ].
  intros i l Hn. destruct (H5 i l Hn) as [r [Hr Ha]]. exists r.
  split; [exact Hr | exact Ha].
Qed.

Lemma servable_lines_answered_in_order_witness :
  Forall (servable sample_runtime) [initialize_line "1"; line "oops"]
  /\ fst (main sample_runtime [initialize_line "1"; line "oops"]) = []
  /\ List.length
       (stdout (snd (main sample_runtime [initialize_line "1"; line "oops"])))
     = List.length [initialize_line "1"; line "oops"]
  /\ forall i l,
       nth_error [initialize_line "1"; line "oops"] i = Some l ->
       exists response,
         nth_error
           (stdout
              (snd (main sample_runtime [initialize_line "1"; line "oops"])))
           i = Some response
         /\ answer_to sample_runtime MCPServer.init i l response.
Proof.
  assert (Hs : Forall (servable sample_runtime) [initialize_line "1"; line "oops"]).
  { constructor; [ | constructor; [ | constructor] ].
    - split; [discriminate | ]. right. eexists. reflexivity.
    - split; [discriminate | ]. left. eexists. split; reflexivity. }
  split; [exact Hs | ].
  exact (servable_lines_answered_in_order sample_runtime
           [initialize_line "1"; line "oops"] Hs).
Defined.

(** X14.  [main] stops at the first line that [json.loads] decodes to a
    value that is not an object: the lines before it are answered as if the
    input ended there, the line itself gets no response, the last line the
    program writes to standard error names the type of the value, and the
    lines after it stay unread. *)
Theorem loop_stops_at_first_non_object
  (rt : Runtime) (served : list string) (l : string) (rest : list string)
  (v : json) :
  Forall (servable rt) served ->
  l <> "" ->
  json_loads rt (py_strip l) = Ok v ->
  (forall d, v <> JObject d) ->
  fst (main rt (List.app served (l :: rest))) = rest
  /\ stdout (snd (main rt (List.app served (l :: rest))))
     = stdout (snd (main rt served))
  /\ exists logged,
       stderr (snd (main rt (List.app served (l :: rest))))
       = List.app logged
           ["Unexpected error: '" ++ type_name v
            ++ "' object has no attribute 'get'"].
Proof.
  intros Hs Hl Hd Hv. unfold main.
  rewrite (loop_app_servable rt MCPServer.init served Hs).
  rewrite (loop_cons_break rt MCPServer.init _ l rest _ _
             (iteration_not_object rt MCPServer.init _ l _ v Hl Hd Hv)).
  simpl. split; [reflexivity | ]. split; [reflexivity | ].
  eexists. reflexivity.
Qed.

Lemma loop_stops_at_first_non_object_witness :
  (Forall (servable sample_runtime) [line "oops"]
   /\ line "[1, 2]" <> ""
   /\ json_loads sample_runtime (py_strip (line "[1, 2]"))
      = Ok (JArray [JInt 1; JInt 2]))
  /\ fst (main sample_runtime
            (List.app [line "oops"] (line "[1, 2]" :: [initialize_line "1"])))
     = [initialize_line "1"]
  /\ stdout
       (snd (main sample_runtime
               (List.app [line "oops"]
                  (line "[1, 2]" :: [initialize_line "1"]))))
     = stdout (snd (main sample_runtime [line "oops"]))
  /\ exists logged,
       stderr
         (snd (main sample_runtime
                 (List.app [line "oops"]
                    (line "[1, 2]" :: [initialize_line "1"]))))
       = List.app logged
           ["Unexpected error: '" ++ type_name (JArray [JInt 1; JInt 2])
            ++ "' object has no attribute 'get'"].
Proof.
  assert (Hs : Forall (servable sample_runtime) [line "oops"]).
  { constructor; [ | constructor].
    split; [discriminate | ]. left. eexists. split; reflexivity. }
  split; [split; [exact Hs | split; [discriminate | reflexivity] ] | ].
  apply (loop_stops_at_first_non_object sample_runtime [line "oops"]
           (line "[1, 2]") [initialize_line "1"] (JArray [JInt 1; JInt 2])).
  - exact Hs.
  - discriminate.
  - reflexivity.
  - discriminate.
Defined.

(** X16.  What [main] writes for the lines read so
    far does not depend on the lines that follow: the output for a prefix of
    the input is a prefix of the output for the whole input. *)
Theorem earlier_output_unaffected_by_later_input
  (rt : Runtime) (read later : list string) :
  exists extra,
    stdout (snd (main rt (List.app read later)))
    = List.app (stdout (snd (main rt read))) extra.
Proof. unfold main. apply loop_stdout_prefix. Qed.

(** X17.  [main] never writes more than one line per line it
    reads: the lines written and the lines left unread are together no more
    than the lines of the input. *)
Theorem at_most_one_response_per_line (rt : Runtime) (stdin : list string) :
  (List.length (stdout (snd (main rt stdin)))
   + List.length (fst (main rt stdin))
   <= List.length stdin)%nat.
Proof.
  unfold main.
  pose proof (loop_counts rt MCPServer.init stdin 0
                {| stdout := []; stderr := banner |}) as H.
  simpl in H. exact H.
Qed.

(** X18.  Every line [main] writes to standard output is a
    handler's response or the parse error: it has the member [jsonrpc] with
    value ["2.0"], and when it is an error its code is one of -32700, -32601,
    -32602, -32603. *)
Theorem output_lines_are_envelopes
  (rt : Runtime) (stdin : list string) (response : json) :
  In response (stdout (snd (main rt stdin))) ->
  wire_response response
  /\ member response "jsonrpc" = Some (JString "2.0")
  /\ (member response "error" = None
      \/ exists code,
           error_code response = Some (JInt code) /\ In code error_codes).
Proof.
  intros Hin.
  assert (Hall : Forall wire_response (stdout (snd (main rt stdin)))).
  { unfold main. apply loop_stdout_all; [ | constructor].
    intros k l r. apply answer_is_wire_response. }
  rewrite Forall_forall in Hall. specialize (Hall response Hin).
  split; [exact Hall | ].
  destruct (wire_response_facts response Hall) as [H1 [_ H3]].
  split; assumption.
Qed.

Lemma output_lines_are_envelopes_witness :
  In (parse_error_response sample_runtime "oops")
    (stdout (snd (main sample_runtime [line "oops"])))
  /\ wire_response (parse_error_response sample_runtime "oops")
  /\ member (parse_error_response sample_runtime "oops") "jsonrpc"
     = Some (JString "2.0")
  /\ (member (parse_error_response sample_runtime "oops") "error" = None
      \/ exists code,
           error_code (parse_error_response sample_runtime "oops")
           = Some (JInt code)
           /\ In code error_codes).
Proof.
  assert (Hin : In (parse_error_response sample_runtime "oops")
                  (stdout (snd (main sample_runtime [line "oops"])))).
  { left. reflexivity. }
  split; [exact Hin | ].
  exact (output_lines_are_envelopes sample_runtime [line "oops"] _ Hin).
Defined.

(** X1.  A message that is a JSON object always gets a response, whatever its
    method, parameters and arguments: [handle_message] never raises on it.
    The response has the members [jsonrpc] (["2.0"]), [id] (the request's,
    null when it has none) and then either [result] or an [error] whose code
    is -32601, -32602 or -32603, and no other member. *)
Theorem object_always_answered
  (rt : Runtime) (self : MCPServer.t) (now : datetime) (d : Dict.t) :
  exists response,
    MCPServer.handle_message rt self now (JObject d) = Ok response
    /\ handler_response (Dict.get_default d "id" JNull) response.
Proof.
  destruct (handle_message_object rt self now d) as [r [Hr _]].
  exists r. split; [exact Hr | ].
  exact (handle_message_shape rt self now d r Hr).
Qed.

Section HandlerEdges.

Variable rt : Runtime.
Variable self : MCPServer.t.
Variable now : datetime.

Lemma py_get_not_object (v : json) (k : string) (default : json) :
  (forall d, v <> JObject d) -> py_get v k default = Raise (no_get v).
Proof.
  intros Hv. destruct v; try reflexivity. exfalso. eapply Hv. reflexivity.
Qed.

Lemma eval_not_string (e : json) :
  (forall s, e <> JString s) ->
  MCPServer.eval rt e
  = Raise (mkExn TypeError
             "eval() arg 1 must be a string, bytes or code object").
Proof.
  intros He. destruct e; try reflexivity. exfalso. eapply He. reflexivity.
Qed.

Lemma all_allowed_false (s : string) (c : ascii) :
  In c (list_ascii_of_string s) ->
  MCPServer.allowed_char c = false ->
  MCPServer.all_allowed s = false.
Proof.
  induction s as [ | a s IH]; simpl; [tauto | ].
  intros [-> | Hin] Hc.
  - rewrite Hc. reflexivity.
  - rewrite (IH Hin Hc). apply andb_false_r.
Qed.

(** [calculate] on an object of arguments answers, with a result or with a
    calculation error. *)
Lemma calculate_answer (msg_id : json) (dp da : Dict.t) :
  Dict.get_default dp "name" JNull = JString "calculate" ->
  Dict.get_default dp "arguments" (JObject []) = JObject da ->
  (exists s r,
     Dict.get_default da "expression" (JString "") = JString s
     /\ MCPServer.all_allowed s = true
     /\ py_eval rt s = Ok r
     /\ MCPServer.handle_tools_call rt now msg_id (JObject dp)
        = Ok (JObject
                [("jsonrpc", JString "2.0");
                 ("id", msg_id);
                 ("result",
                  JObject
                    [("content",
                      JArray
                        [text_block (s ++ " = " ++ str_evaluated r)])])]))
  \/ (exists message,
        MCPServer.handle_tools_call rt now msg_id (JObject dp)
        = Ok (JObject
                [("jsonrpc", JString "2.0");
                 ("id", msg_id);
                 ("error",
                  JObject
                    [("code", JInt (-32602));
                     ("message",
                      JString ("Calculation error: " ++ message))])])).
Proof.
  intros Hn Ha. unfold MCPServer.handle_tools_call.
  rewrite !py_get_object, Hn, Ha. simpl.
  destruct (Dict.get_default da "expression" (JString "")) as
    [ | b | n | lit | s | items | fields] eqn:He;
    try (right; eexists; reflexivity).
  - simpl. destruct (MCPServer.all_allowed s) eqn:Hs; simpl.
    + destruct (py_eval rt s) as [r | e] eqn:Hr; simpl.
      * left. exists s, r. repeat split; assumption.
      * rewrite (py_eval_raises _ _ _ Hr). right. eexists. reflexivity.
    + right. eexists. reflexivity.
  - simpl.
    destruct (MCPServer.all_elements_allowed items) as [[ | ] | e] eqn:Hi;
      simpl; try (right; eexists; reflexivity).
    rewrite (all_elements_allowed_raises _ _ Hi). right. eexists. reflexivity.
  - simpl.
    destruct (MCPServer.all_elements_allowed (map JString (Dict.keys fields)))
      as [[ | ] | e] eqn:Hi;
      simpl; try (right; eexists; reflexivity).
    rewrite (all_elements_allowed_raises _ _ Hi). right. eexists. reflexivity.
Qed.

Lemma handle_tools_call_clock (now' : datetime) (msg_id params : json) :
  MCPServer.handle_tools_call rt now msg_id params
  = MCPServer.handle_tools_call rt now' msg_id params.
Proof. reflexivity. Qed.

End HandlerEdges.

(** X2.  [initialize], [tools/list] and [resources/list] always succeed
    and look at nothing but the method and the [id]: two requests that agree
    on these get the same response, a result, even when [params] is missing
    or is not an object. *)
Theorem listing_methods_ignore_params
  (rt : Runtime) (self : MCPServer.t) (now : datetime) (d d' : Dict.t)
  (method : string) :
  In method ["initialize"; "tools/list"; "resources/list"] ->
  Dict.lookup d "method" = Some (JString method) ->
  Dict.lookup d' "method" = Some (JString method) ->
  Dict.get_default d' "id" JNull = Dict.get_default d "id" JNull ->
  MCPServer.handle_message rt self now (JObject d')
  = MCPServer.handle_message rt self now (JObject d)
  /\ exists payload,
       MCPServer.handle_message rt self now (JObject d)
       = Ok (JObject
               [("jsonrpc", JString "2.0");
                ("id", Dict.get_default d "id" JNull);
                ("result", payload)]).
Proof.
  intros Hin Hm Hm' Hid. unfold MCPServer.handle_message.
  rewrite !dispatch_object, Hid.
  rewrite (lookup_get_default _ _ _ JNull Hm), (lookup_get_default _ _ _ JNull Hm').
  destruct Hin as [<- | [<- | [<- | []]]]; simpl;
    (split; [reflexivity | eexists; reflexivity]).
Qed.

Lemma listing_methods_ignore_params_witness :
  (In "tools/list" ["initialize"; "tools/list"; "resources/list"]
   /\ Dict.lookup [("id", JInt 4); ("method", JString "tools/list")] "method"
      = Some (JString "tools/list")
   /\ Dict.lookup
        [("method", JString "tools/list"); ("params", JInt 0);
         ("id", JInt 4)] "method"
      = Some (JString "tools/list"))
  /\ MCPServer.handle_message sample_runtime MCPServer.init
       (clock sample_runtime 0)
       (JObject
          [("method", JString "tools/list"); ("params", JInt 0);
           ("id", JInt 4)])
     = MCPServer.handle_message sample_runtime MCPServer.init
         (clock sample_runtime 0)
         (JObject [("id", JInt 4); ("method", JString "tools/list")]).
Proof.
  split; [split; [right; left; reflexivity | split; reflexivity] | ].
  apply (listing_methods_ignore_params sample_runtime MCPServer.init
           (clock sample_runtime 0)
           [("id", JInt 4); ("method", JString "tools/list")]
           [("method", JString "tools/list"); ("params", JInt 0);
            ("id", JInt 4)] "tools/list").
  - right; left; reflexivity.
  - reflexivity.
  - reflexivity.
  - reflexivity.
Defined.

(** X3.  The names [tools/list] lists are the names [tools/call]
    accepts: the response to a call is the error "Unknown tool" exactly when
    the name is not among the listed ones. *)
Theorem listed_tools_are_the_callable_ones
  (rt : Runtime) (now : datetime) (d dp : Dict.t) (response : json) :
  Dict.lookup d "method" = Some (JString "tools/call") ->
  Dict.get_default d "params" (JObject []) = JObject dp ->
  MCPServer.handle_message rt MCPServer.init now (JObject d) = Ok response ->
  (In (Dict.get_default dp "name" JNull)
      (listed "tools" "name"
         (MCPServer.handle_tools_list MCPServer.init JNull))
   <-> ~ is_error response (-32602)
           ("Unknown tool: " ++ py_str rt (Dict.get_default dp "name" JNull))).
Proof.
  intros Hm Hp Hr.
  rewrite (handle_message_tools_call rt MCPServer.init now d Hm), Hp in Hr.
  change (listed "tools" "name"
            (MCPServer.handle_tools_list MCPServer.init JNull))
    with [JString "get_weather"; JString "calculate"].
  split.
  - intros [Hn | [Hn | []]] [He _]; symmetry in Hn.
    + destruct (Dict.get_default dp "arguments" (JObject [])) as
        [ | | | | | | da] eqn:Ha;
        unfold MCPServer.handle_tools_call in Hr;
        rewrite !py_get_object, Hn, Ha in Hr; simpl in Hr;
        inversion Hr; subst; simpl in He; discriminate.
    + destruct (Dict.get_default dp "arguments" (JObject [])) as
        [ | | | | | | da] eqn:Ha;
        try (unfold MCPServer.handle_tools_call in Hr;
             rewrite !py_get_object, Hn, Ha in Hr; simpl in Hr;
             inversion Hr; subst; simpl in He; discriminate).
      destruct (calculate_answer rt now (Dict.get_default d "id" JNull)
                  dp da Hn Ha)
        as [[s [r [_ [_ [_ Hc]]]]] | [message Hc]];
        rewrite Hc in Hr; inversion Hr; subst; simpl in He; discriminate.
  - intros Hne.
    destruct (registered_tool (Dict.get_default dp "name" JNull)) eqn:Hreg.
    + apply among_true in Hreg. destruct Hreg as [s [Hs [<- | [<- | []]]]];
        rewrite Hs; simpl; tauto.
    + exfalso. apply Hne.
      rewrite (unknown_tool_answer rt now _ _ Hreg) in Hr.
      inversion Hr; subst. split; reflexivity.
Qed.

Lemma listed_tools_are_the_callable_ones_witness :
  (Dict.lookup
     [("id", JInt 2); ("method", JString "tools/call");
      ("params", JObject [("name", JString "get_weather")])] "method"
   = Some (JString "tools/call")
   /\ MCPServer.handle_message sample_runtime MCPServer.init
        (clock sample_runtime 0)
        (JObject
           [("id", JInt 2); ("method", JString "tools/call");
            ("params", JObject [("name", JString "get_weather")])])
      = Ok (JObject
              [("jsonrpc", JString "2.0");
               ("id", JInt 2);
               ("result",
                JObject
                  [("content",
                    JArray
                      [text_block
                         "Weather in Unknown: Sunny, 22Â°C, Humidity: 65%"])])]))
  /\ (In (JString "get_weather")
         (listed "tools" "name"
            (MCPServer.handle_tools_list MCPServer.init JNull))
      <-> ~ is_error
              (JObject
                 [("jsonrpc", JString "2.0");
                  ("id", JInt 2);
                  ("result",
                   JObject
                     [("content",
                       JArray
                         [text_block
                            "Weather in Unknown: Sunny, 22Â°C, Humidity: 65%"])])])
              (-32602) "Unknown tool: get_weather").
Proof.
  split; [split; reflexivity | ].
  apply (listed_tools_are_the_callable_ones sample_runtime
           (clock sample_runtime 0)
           [("id", JInt 2); ("method", JString "tools/call");
            ("params", JObject [("name", JString "get_weather")])]
           [("name", JString "get_weather")]).
  - reflexivity.
  - reflexivity.
  - reflexivity.
Defined.

(** X4.  The URIs [resources/list] lists are the URIs
    [resources/read] serves: the response to a read is a result exactly when
    the URI is among the listed ones. *)
Theorem listed_resources_are_the_readable_ones
  (rt : Runtime) (now : datetime) (d dp : Dict.t) (response : json) :
  Dict.lookup d "method" = Some (JString "resources/read") ->
  Dict.get_default d "params" (JObject []) = JObject dp ->
  MCPServer.handle_message rt MCPServer.init now (JObject d) = Ok response ->
  (In (Dict.get_default dp "uri" JNull)
      (listed "resources" "uri"
         (MCPServer.handle_resources_list MCPServer.init JNull))
   <-> member response "result" <> None).
Proof.
  intros Hm Hp Hr.
  rewrite (handle_message_resources_read rt MCPServer.init now d Hm), Hp in Hr.
  change (listed "resources" "uri"
            (MCPServer.handle_resources_list MCPServer.init JNull))
    with [JString "file://notes.txt"].
  unfold MCPServer.handle_resources_read in Hr.
  rewrite py_get_object in Hr. simpl in Hr.
  destruct (eq_str (Dict.get_default dp "uri" JNull) "file://notes.txt")
    eqn:Hu; inversion Hr; subst; simpl.
  - apply eq_str_true in Hu. rewrite Hu.
    split; [discriminate | left; reflexivity].
  - split; [ | congruence].
    intros [Hn | []]. rewrite <- Hn in Hu. discriminate.
Qed.

Lemma listed_resources_are_the_readable_ones_witness :
  (Dict.lookup
     [("method", JString "resources/read");
      ("params", JObject [("uri", JString "file://other.txt")])] "method"
   = Some (JString "resources/read")
   /\ MCPServer.handle_message sample_runtime MCPServer.init
        (clock sample_runtime 0)
        (JObject
           [("method", JString "resources/read");
            ("params", JObject [("uri", JString "file://other.txt")])])
      = Ok (JObject
              [("jsonrpc", JString "2.0");
               ("id", JNull);
               ("error",
                JObject
                  [("code", JInt (-32602));
                   ("message",
                    JString "Resource not found: file://other.txt")])]))
  /\ (In (JString "file://other.txt")
         (listed "resources" "uri"
            (MCPServer.handle_resources_list MCPServer.init JNull))
      <-> member
            (JObject
               [("jsonrpc", JString "2.0");
                ("id", JNull);
                ("error",
                 JObject
                   [("code", JInt (-32602));
                    ("message",
                     JString "Resource not found: file://other.txt")])])
            "result" <> None).
Proof.
  split; [split; reflexivity | ].
  apply (listed_resources_are_the_readable_ones sample_runtime
           (clock sample_runtime 0)
           [("method", JString "resources/read");
            ("params", JObject [("uri", JString "file://other.txt")])]
           [("uri", JString "file://other.txt")]).
  - reflexivity.
  - reflexivity.
  - reflexivity.
Defined.

(** X5.  A [tools/call] or [resources/read] request whose [params]
    is present and is not an object (null, a list, a string, a number) gets
    the internal error -32603, with the request's [id] and the message of the
    fault: the value has no attribute [get]. *)
Theorem ill_typed_params_internal_error
  (rt : Runtime) (self : MCPServer.t) (now : datetime) (d : Dict.t)
  (method : string) (params : json) :
  In method ["tools/call"; "resources/read"] ->
  Dict.lookup d "method" = Some (JString method) ->
  Dict.lookup d "params" = Some params ->
  (forall dp, params <> JObject dp) ->
  MCPServer.handle_message rt self now (JObject d)
  = Ok (internal_error (Dict.get_default d "id" JNull) (no_get params)).
Proof.
  intros Hin Hm Hp Hno.
  destruct Hin as [<- | [<- | []]].
  - rewrite (handle_message_tools_call rt self now d Hm).
    rewrite (lookup_get_default _ _ _ (JObject []) Hp).
    unfold MCPServer.handle_tools_call.
    rewrite (py_get_not_object params "name" JNull Hno). reflexivity.
  - rewrite (handle_message_resources_read rt self now d Hm).
    rewrite (lookup_get_default _ _ _ (JObject []) Hp).
    unfold MCPServer.handle_resources_read.
    rewrite (py_get_not_object params "uri" JNull Hno). reflexivity.
Qed.

Lemma ill_typed_params_internal_error_witness :
  (In "tools/call" ["tools/call"; "resources/read"]
   /\ Dict.lookup
        [("id", JInt 6); ("method", JString "tools/call"); ("params", JNull)]
        "method" = Some (JString "tools/call")
   /\ Dict.lookup
        [("id", JInt 6); ("method", JString "tools/call"); ("params", JNull)]
        "params" = Some JNull)
  /\ MCPServer.handle_message sample_runtime MCPServer.init
       (clock sample_runtime 0)
       (JObject
          [("id", JInt 6); ("method", JString "tools/call");
           ("params", JNull)])
     = Ok (internal_error
             (Dict.get_default
                [("id", JInt 6); ("method", JString "tools/call");
                 ("params", JNull)] "id" JNull)
             (no_get JNull)).
Proof.
  split; [split; [left; reflexivity | split; reflexivity] | ].
  apply (ill_typed_params_internal_error sample_runtime MCPServer.init
           (clock sample_runtime 0)
           [("id", JInt 6); ("method", JString "tools/call");
            ("params", JNull)] "tools/call" JNull).
  - left; reflexivity.
  - reflexivity.
  - reflexivity.
  - discriminate.
Defined.

(** X6.  A call of a registered tool whose [arguments] is
    present and is not an object gets the internal error -32603 (not the
    invalid-params error -32602): for [calculate] too, whose [try] starts
    after the arguments are read. *)
Theorem ill_typed_arguments_internal_error
  (rt : Runtime) (self : MCPServer.t) (now : datetime) (d dp : Dict.t)
  (arguments : json) :
  Dict.lookup d "method" = Some (JString "tools/call") ->
  Dict.get_default d "params" (JObject []) = JObject dp ->
  registered_tool (Dict.get_default dp "name" JNull) = true ->
  Dict.lookup dp "arguments" = Some arguments ->
  (forall da, arguments <> JObject da) ->
  MCPServer.handle_message rt self now (JObject d)
  = Ok (internal_error (Dict.get_default d "id" JNull) (no_get arguments)).
Proof.
  intros Hm Hp Hreg Ha Hno.
  rewrite (handle_message_tools_call rt self now d Hm), Hp.
  apply among_true in Hreg. destruct Hreg as [s [Hs Hin]].
  unfold MCPServer.handle_tools_call.
  rewrite !py_get_object, Hs, (lookup_get_default _ _ _ (JObject []) Ha).
  destruct Hin as [<- | [<- | []]]; simpl.
  - rewrite (py_get_not_object arguments "city" _ Hno). reflexivity.
  - rewrite (py_get_not_object arguments "expression" _ Hno). reflexivity.
Qed.

Lemma ill_typed_arguments_internal_error_witness :
  (Dict.lookup
     [("method", JString "tools/call");
      ("params",
       JObject [("name", JString "calculate");
                ("arguments", JString "2 + 2")])] "method"
   = Some (JString "tools/call")
   /\ registered_tool (JString "calculate") = true
   /\ Dict.lookup
        [("name", JString "calculate"); ("arguments", JString "2 + 2")]
        "arguments" = Some (JString "2 + 2"))
  /\ MCPServer.handle_message sample_runtime MCPServer.init
       (clock sample_runtime 0)
       (JObject
          [("method", JString "tools/call");
           ("params",
            JObject [("name", JString "calculate");
                     ("arguments", JString "2 + 2")])])
     = Ok (internal_error JNull (no_get (JString "2 + 2"))).
Proof.
  split; [split; [reflexivity | split; reflexivity] | ].
  apply (ill_typed_arguments_internal_error sample_runtime MCPServer.init
           (clock sample_runtime 0)
           [("method", JString "tools/call");
            ("params",
             JObject [("name", JString "calculate");
                      ("arguments", JString "2 + 2")])]
           [("name", JString "calculate"); ("arguments", JString "2 + 2")]
           (JString "2 + 2")).
  - reflexivity.
  - reflexivity.
  - reflexivity.
  - reflexivity.
  - discriminate.
Defined.

(** X7.  [calculate] never answers an [expression] that is
    not a string with a result, and never faults on it: a number, null, a
    boolean, a list, an object all get the error -32602, a calculation
    error. *)
Theorem non_string_expression_rejected
  (rt : Runtime) (self : MCPServer.t) (now : datetime) (d dp da : Dict.t) :
  Dict.lookup d "method" = Some (JString "tools/call") ->
  Dict.get_default d "params" (JObject []) = JObject dp ->
  Dict.get_default dp "name" JNull = JString "calculate" ->
  Dict.get_default dp "arguments" (JObject []) = JObject da ->
  (forall s, Dict.get_default da "expression" (JString "") <> JString s) ->
  exists response message,
    MCPServer.handle_message rt self now (JObject d) = Ok response
    /\ is_error response (-32602) ("Calculation error: " ++ message).
Proof.
  intros Hm Hp Hn Ha He.
  rewrite (handle_message_tools_call rt self now d Hm), Hp.
  destruct (calculate_answer rt now (Dict.get_default d "id" JNull) dp da Hn Ha)
    as [[s [r [Hs _]]] | [message Hc]].
  - exfalso. exact (He s Hs).
  - rewrite Hc. eexists. exists message. split; [reflexivity | ].
    split; reflexivity.
Qed.

Lemma non_string_expression_rejected_witness :
  (Dict.lookup
     [("method", JString "tools/call");
      ("params",
       JObject
         [("name", JString "calculate");
          ("arguments",
           JObject [("expression", JArray [JString "1"; JString "+";
                                           JString "1"])])])]
     "method" = Some (JString "tools/call")
   /\ forall s,
        Dict.get_default
          [("expression", JArray [JString "1"; JString "+"; JString "1"])]
          "expression" (JString "") <> JString s)
  /\ exists response message,
       MCPServer.handle_message sample_runtime MCPServer.init
         (clock sample_runtime 0)
         (JObject
            [("method", JString "tools/call");
             ("params",
              JObject
                [("name", JString "calculate");
                 ("arguments",
                  JObject
                    [("expression",
                      JArray [JString "1"; JString "+"; JString "1"])])])])
       = Ok response
       /\ is_error response (-32602) ("Calculation error: " ++ message).
Proof.
  split; [split; [reflexivity | discriminate] | ].
  apply (non_string_expression_rejected sample_runtime MCPServer.init
           (clock sample_runtime 0)
           [("method", JString "tools/call");
            ("params",
             JObject
               [("name", JString "calculate");
                ("arguments",
                 JObject
                   [("expression",
                     JArray [JString "1"; JString "+"; JString "1"])])])]
           [("name", JString "calculate");
            ("arguments",
             JObject
               [("expression",
                 JArray [JString "1"; JString "+"; JString "1"])])]
           [("expression", JArray [JString "1"; JString "+"; JString "1"])]).
  - reflexivity.
  - reflexivity.
  - reflexivity.
  - reflexivity.
  - discriminate.
Defined.

(** X8.  An expression with a character outside
    [0123456789+-*/(). ] gets the error -32602 with the fixed message
    "Calculation error: Invalid characters in expression"; the response does
    not depend on the evaluator at all. *)
Theorem foreign_character_rejected
  (rt : Runtime) (self : MCPServer.t) (now : datetime) (d dp da : Dict.t)
  (s : string) (c : ascii) :
  Dict.lookup d "method" = Some (JString "tools/call") ->
  Dict.get_default d "params" (JObject []) = JObject dp ->
  Dict.get_default dp "name" JNull = JString "calculate" ->
  Dict.get_default dp "arguments" (JObject []) = JObject da ->
  Dict.lookup da "expression" = Some (JString s) ->
  In c (list_ascii_of_string s) ->
  MCPServer.allowed_char c = false ->
  MCPServer.handle_message rt self now (JObject d)
  = Ok (JObject
          [("jsonrpc", JString "2.0");
           ("id", Dict.get_default d "id" JNull);
           ("error",
            JObject
              [("code", JInt (-32602));
               ("message",
                JString
                  "Calculation error: Invalid characters in expression")])]).
Proof.
  intros Hm Hp Hn Ha He Hin Hc.
  rewrite (handle_message_tools_call rt self now d Hm), Hp.
  rewrite (calculate_rejects_foreign_characters rt now _ dp da s Hn Ha
             (lookup_get_default _ _ _ _ He) (all_allowed_false s c Hin Hc)).
  reflexivity.
Qed.

Lemma foreign_character_rejected_witness :
  (In "_"%char (list_ascii_of_string "__import__('os')")
   /\ MCPServer.allowed_char "_" = false)
  /\ MCPServer.handle_message sample_runtime MCPServer.init
       (clock sample_runtime 0)
       (calculate_request (JInt 1) "__import__('os')")
     = Ok (JObject
             [("jsonrpc", JString "2.0");
              ("id", JInt 1);
              ("error",
               JObject
                 [("code", JInt (-32602));
                  ("message",
                   JString
                     "Calculation error: Invalid characters in expression")])]).
Proof.
  split; [split; [left; reflexivity | reflexivity] | ].
  apply (foreign_character_rejected sample_runtime MCPServer.init
           (clock sample_runtime 0)
           [("jsonrpc", JString "2.0"); ("id", JInt 1);
            ("method", JString "tools/call");
            ("params",
             JObject
               [("name", JString "calculate");
                ("arguments",
                 JObject [("expression", JString "__import__('os')")])])]
           [("name", JString "calculate");
            ("arguments",
             JObject [("expression", JString "__import__('os')")])]
           [("expression", JString "__import__('os')")]
           "__import__('os')" "_"%char).
  - reflexivity.
  - reflexivity.
  - reflexivity.
  - reflexivity.
  - reflexivity.
  - left; reflexivity.
  - reflexivity.
Defined.

(** X9.  When [calculate] answers with a result,
    the arguments were an object, the expression a string of allowed
    characters that [eval] evaluated, and the text of the result is the
    expression, [" = "] and the value. *)
Theorem calculate_result_only_for_evaluated_string
  (rt : Runtime) (self : MCPServer.t) (now : datetime) (d dp : Dict.t)
  (response : json) :
  Dict.lookup d "method" = Some (JString "tools/call") ->
  Dict.get_default d "params" (JObject []) = JObject dp ->
  Dict.get_default dp "name" JNull = JString "calculate" ->
  MCPServer.handle_message rt self now (JObject d) = Ok response ->
  member response "result" <> None ->
  exists da s r,
    Dict.get_default dp "arguments" (JObject []) = JObject da
    /\ Dict.get_default da "expression" (JString "") = JString s
    /\ MCPServer.all_allowed s = true
    /\ py_eval rt s = Ok r
    /\ is_text_result response (s ++ " = " ++ str_evaluated r).
Proof.
  intros Hm Hp Hn Hr Hres.
  rewrite (handle_message_tools_call rt self now d Hm), Hp in Hr.
  destruct (Dict.get_default dp "arguments" (JObject [])) as
    [ | | | | | | da] eqn:Ha;
    try (unfold MCPServer.handle_tools_call in Hr;
         rewrite !py_get_object, Hn, Ha in Hr; simpl in Hr;
         inversion Hr; subst; exfalso; apply Hres; reflexivity).
  destruct (calculate_answer rt now (Dict.get_default d "id" JNull) dp da Hn Ha)
    as [[s [r [Hs [Hall [Hev Hc]]]]] | [message Hc]];
    rewrite Hc in Hr; inversion Hr; subst.
  - exists da, s, r. repeat split; assumption.
  - exfalso. apply Hres. reflexivity.
Qed.

Lemma calculate_result_only_for_evaluated_string_witness :
  (Dict.lookup
     [("jsonrpc", JString "2.0"); ("id", JInt 1);
      ("method", JString "tools/call");
      ("params",
       JObject
         [("name", JString "calculate");
          ("arguments", JObject [("expression", JString "7 - 10")])])]
     "method" = Some (JString "tools/call")
   /\ MCPServer.handle_message sample_runtime MCPServer.init
        (clock sample_runtime 0) (calculate_request (JInt 1) "7 - 10")
      = Ok (JObject
              [("jsonrpc", JString "2.0");
               ("id", JInt 1);
               ("result",
                JObject
                  [("content", JArray [text_block "7 - 10 = -3"])])]))
  /\ exists da s r,
       Dict.get_default
         [("name", JString "calculate");
          ("arguments", JObject [("expression", JString "7 - 10")])]
         "arguments" (JObject []) = JObject da
       /\ Dict.get_default da "expression" (JString "") = JString s
       /\ MCPServer.all_allowed s = true
       /\ py_eval sample_runtime s = Ok r
       /\ is_text_result
            (JObject
               [("jsonrpc", JString "2.0");
                ("id", JInt 1);
                ("result",
                 JObject
                   [("content", JArray [text_block "7 - 10 = -3"])])])
            (s ++ " = " ++ str_evaluated r).
Proof.
  split; [split; reflexivity | ].
  apply (calculate_result_only_for_evaluated_string sample_runtime
           MCPServer.init (clock sample_runtime 0)
           [("jsonrpc", JString "2.0"); ("id", JInt 1);
            ("method", JString "tools/call");
            ("params",
             JObject
               [("name", JString "calculate");
                ("arguments", JObject [("expression", JString "7 - 10")])])]
           [("name", JString "calculate");
            ("arguments", JObject [("expression", JString "7 - 10")])]).
  - reflexivity.
  - reflexivity.
  - reflexivity.
  - reflexivity.
  - discriminate.
Defined.

(** X10.  [calculate] without an [expression] among
    its arguments evaluates the empty string, which is a syntax error: the
    response is the error -32602 with the evaluator's message for the empty
    source. *)
Theorem missing_expression_is_calculation_error
  (rt : Runtime) (self : MCPServer.t) (now : datetime) (d dp da : Dict.t) :
  Dict.lookup d "method" = Some (JString "tools/call") ->
  Dict.get_default d "params" (JObject []) = JObject dp ->
  Dict.get_default dp "name" JNull = JString "calculate" ->
  Dict.get_default dp "arguments" (JObject []) = JObject da ->
  Dict.lookup da "expression" = None ->
  MCPServer.handle_message rt self now (JObject d)
  = Ok (JObject
          [("jsonrpc", JString "2.0");
           ("id", Dict.get_default d "id" JNull);
           ("error",
            JObject
              [("code", JInt (-32602));
               ("message",
                JString ("Calculation error: " ++ eval_error_text rt ""))])]).
Proof.
  intros Hm Hp Hn Ha He.
  rewrite (handle_message_tools_call rt self now d Hm), Hp.
  rewrite (calculate_allowed rt now _ dp da "" Hn Ha).
  - reflexivity.
  - unfold Dict.get_default. rewrite He. reflexivity.
  - reflexivity.
Qed.

Lemma missing_expression_is_calculation_error_witness :
  (Dict.lookup
     [("id", JInt 8); ("method", JString "tools/call");
      ("params", JObject [("name", JString "calculate")])] "method"
   = Some (JString "tools/call")
   /\ Dict.get_default [("name", JString "calculate")] "arguments"
        (JObject []) = JObject []
   /\ Dict.lookup [] "expression" = None)
  /\ MCPServer.handle_message sample_runtime MCPServer.init
       (clock sample_runtime 0)
       (JObject
          [("id", JInt 8); ("method", JString "tools/call");
           ("params", JObject [("name", JString "calculate")])])
     = Ok (JObject
             [("jsonrpc", JString "2.0");
              ("id", JInt 8);
              ("error",
               JObject
                 [("code", JInt (-32602));
                  ("message",
                   JString
                     ("Calculation error: "
                      ++ eval_error_text sample_runtime ""))])]).
Proof.
  split; [split; [reflexivity | split; reflexivity] | ].
  apply (missing_expression_is_calculation_error sample_runtime
           MCPServer.init (clock sample_runtime 0)
           [("id", JInt 8); ("method", JString "tools/call");
            ("params", JObject [("name", JString "calculate")])]
           [("name", JString "calculate")] []).
  - reflexivity.
  - reflexivity.
  - reflexivity.
  - reflexivity.
  - reflexivity.
Defined.

(** X11.  A missing method, tool name or resource URI is read
    as [None] and reported under that name: "Method not found: None",
    "Unknown tool: None", "Resource not found: None". *)
Theorem missing_names_reported_as_None
  (rt : Runtime) (self : MCPServer.t) (now : datetime) (d dp : Dict.t) :
  Dict.get_default d "params" (JObject []) = JObject dp ->
  exists response,
    MCPServer.handle_message rt self now (JObject d) = Ok response
    /\ (Dict.lookup d "method" = None ->
        is_error response (-32601) "Method not found: None")
    /\ (Dict.lookup d "method" = Some (JString "tools/call") ->
        Dict.lookup dp "name" = None ->
        is_error response (-32602) "Unknown tool: None")
    /\ (Dict.lookup d "method" = Some (JString "resources/read") ->
        Dict.lookup dp "uri" = None ->
        is_error response (-32602) "Resource not found: None").
Proof.
  intros Hp.
  destruct (handle_message_object rt self now d) as [response [Hr _]].
  exists response. split; [exact Hr | ]. split; [ | split].
  - intros Hm.
    assert (Hd : Dict.get_default d "method" JNull = JNull).
    { unfold Dict.get_default. rewrite Hm. reflexivity. }
    unfold MCPServer.handle_message in Hr.
    rewrite dispatch_object, Hd in Hr. simpl in Hr.
    inversion Hr; subst. split; reflexivity.
  - intros Hm Hn.
    assert (Hd : Dict.get_default dp "name" JNull = JNull).
    { unfold Dict.get_default. rewrite Hn. reflexivity. }
    rewrite (handle_message_tools_call rt self now d Hm), Hp in Hr.
    rewrite (unknown_tool_answer rt now _ dp) in Hr;
      [ | rewrite Hd; reflexivity].
    rewrite Hd in Hr. inversion Hr; subst. split; reflexivity.
  - intros Hm Hu.
    assert (Hd : Dict.get_default dp "uri" JNull = JNull).
    { unfold Dict.get_default. rewrite Hu. reflexivity. }
    rewrite (handle_message_resources_read rt self now d Hm), Hp in Hr.
    unfold MCPServer.handle_resources_read in Hr.
    rewrite py_get_object, Hd in Hr. simpl in Hr.
    inversion Hr; subst. split; reflexivity.
Qed.

Lemma missing_names_reported_as_None_witness :
  (Dict.get_default [("id", JInt 5); ("method", JString "tools/call")]
     "params" (JObject []) = JObject []
   /\ Dict.lookup [("id", JInt 5); ("method", JString "tools/call")] "method"
      = Some (JString "tools/call")
   /\ Dict.lookup [] "name" = None)
  /\ exists response,
       MCPServer.handle_message sample_runtime MCPServer.init
         (clock sample_runtime 0)
         (JObject [("id", JInt 5); ("method", JString "tools/call")])
       = Ok response
       /\ is_error response (-32602) "Unknown tool: None".
Proof.
  split; [split; [reflexivity | split; reflexivity] | ].
  destruct (missing_names_reported_as_None sample_runtime MCPServer.init
              (clock sample_runtime 0)
              [("id", JInt 5); ("method", JString "tools/call")] [] eq_refl)
    as [response [Hr [_ [Hn _]]]].
  exists response. split; [exact Hr | exact (Hn eq_refl eq_refl)].
Defined.

(** X12.  The response to a request depends on the time it is
    handled at only when it reads the notes resource: any other request gets
    the same response at any two times (the time stamp [get_weather] computes
    is not reported). *)
Theorem only_notes_depend_on_the_clock
  (rt : Runtime) (self : MCPServer.t) (now now' : datetime) (d : Dict.t) :
  eq_str (Dict.get_default d "method" JNull) "resources/read" = false
  \/ (exists dp,
        Dict.get_default d "params" (JObject []) = JObject dp
        /\ registered_resource (Dict.get_default dp "uri" JNull) = false) ->
  MCPServer.handle_message rt self now (JObject d)
  = MCPServer.handle_message rt self now' (JObject d).
Proof.
  intros H. unfold MCPServer.handle_message. rewrite !dispatch_object.
  destruct (eq_str (Dict.get_default d "method" JNull) "initialize");
    [reflexivity | ].
  destruct (eq_str (Dict.get_default d "method" JNull) "tools/list");
    [reflexivity | ].
  destruct (eq_str (Dict.get_default d "method" JNull) "tools/call");
    [reflexivity | ].
  destruct (eq_str (Dict.get_default d "method" JNull) "resources/list");
    [reflexivity | ].
  destruct (eq_str (Dict.get_default d "method" JNull) "resources/read");
    [ | reflexivity].
  destruct H as [H | [dp [Hp Hu]]]; [discriminate | ].
  rewrite Hp. unfold MCPServer.handle_resources_read.
  rewrite py_get_object. simpl.
  unfold registered_resource in Hu.
  change (Dict.keys (MCPServer.resources MCPServer.init))
    with ["file://notes.txt"] in Hu.
  apply among_cons_false in Hu. destruct Hu as [Hu _]. rewrite Hu.
  reflexivity.
Qed.

Lemma only_notes_depend_on_the_clock_witness :
  eq_str
    (Dict.get_default
       [("method", JString "tools/call");
        ("params", JObject [("name", JString "get_weather")])]
       "method" JNull) "resources/read" = false
  /\ MCPServer.handle_message sample_runtime MCPServer.init
       (mkDatetime "2024-01-01T00:00:00" "2024-01-01 00:00:00")
       (JObject
          [("method", JString "tools/call");
           ("params", JObject [("name", JString "get_weather")])])
     = MCPServer.handle_message sample_runtime MCPServer.init
         (mkDatetime "2025-06-30T23:59:59" "2025-06-30 23:59:59")
         (JObject
            [("method", JString "tools/call");
             ("params", JObject [("name", JString "get_weather")])]).
Proof.
  split; [reflexivity | ].
  apply (only_notes_depend_on_the_clock sample_runtime MCPServer.init
           (mkDatetime "2024-01-01T00:00:00" "2024-01-01 00:00:00")
           (mkDatetime "2025-06-30T23:59:59" "2025-06-30 23:59:59")
           [("method", JString "tools/call");
            ("params", JObject [("name", JString "get_weather")])]).
  left. reflexivity.
Defined.

Section LoopDichotomy.

Variable rt : Runtime.
Variable server : MCPServer.t.

(** [json.loads] raises nothing but a [JSONDecodeError], a
    [RecursionError] or a [ValueError]. *)
Lemma json_loads_raises (text : string) (e : exn) :
  json_loads rt text = Raise e ->
  exn_cls e = JSONDecodeError \/ exn_cls e = RecursionError
  \/ exn_cls e = ValueError.
Proof.
  unfold json_loads.
  destruct (JsonDecoder.decode false (S (json_nesting rt))
              (int_max_str_digits rt) text);
    try destruct why; intros H; inversion H; simpl; tauto.
Qed.

(** A line that is not empty is served, or the pass logs a fault (of the
    decoder, or of [handle_message] on a value that is not an object) and
    ends the loop. *)
Lemma nonempty_line_cases (k : nat) (l : string) (w : world) :
  l <> "" ->
  servable rt l
  \/ exists message,
       iteration rt server k l w
       = (Break, print_stderr ("Unexpected error: " ++ message) w).
Proof.
  intros Hl.
  destruct (json_loads rt (py_strip l)) as [v | e] eqn:Hd.
  - destruct v as [ | | | | | | d];
      try (right; eexists;
           apply iteration_not_object; [exact Hl | exact Hd | discriminate]).
    left. split; [exact Hl | ]. right. exists d. exact Hd.
  - destruct (is_JSONDecodeError e) eqn:He.
    + left. split; [exact Hl | ]. left. exists e. split; assumption.
    + right. exists (exn_msg e).
      rewrite (iteration_raise rt server k l w e Hl Hd), He.
      destruct (json_loads_raises _ _ Hd) as [Hc | [Hc | Hc]];
        rewrite Hc; reflexivity.
Qed.

Lemma loop_silent (stdin : list string) :
  Forall (fun l => l <> "") stdin ->
  forall (k : nat) (w : world),
    stderr (snd (loop rt server k stdin w)) = stderr w ->
    Forall (servable rt) stdin.
Proof.
  induction 1 as [ | l rest Hl Hrest IH]; intros k w Herr; [constructor | ].
  destruct (nonempty_line_cases k l w Hl) as [Hs | [m Hi]].
  - constructor; [exact Hs | ].
    destruct (answer_to_servable rt server k l w Hs) as [r [_ Hi]].
    rewrite (loop_cons_continue _ _ _ _ _ _ _ Hi) in Herr.
    apply (IH (S k) (print_stdout r w)). exact Herr.
  - rewrite (loop_cons_break _ _ _ _ _ _ _ Hi) in Herr. simpl in Herr.
    exfalso. apply (f_equal (@List.length string)) in Herr.
    rewrite length_app in Herr. simpl in Herr. lia.
Qed.

End LoopDichotomy.

(** X15.  When no line read is empty and [main] logged nothing
    after its banner, every line was served: the input was read to its end
    and standard output has one line for each line of input. *)
Theorem silent_run_answers_every_line (rt : Runtime) (stdin : list string) :
  Forall (fun l => l <> "") stdin ->
  stderr (snd (main rt stdin)) = banner ->
  Forall (servable rt) stdin
  /\ fst (main rt stdin) = []
  /\ List.length (stdout (snd (main rt stdin))) = List.length stdin.
Proof.
  intros Hne Herr.
  assert (Hs : Forall (servable rt) stdin).
  { unfold main in Herr.
    exact (loop_silent rt MCPServer.init stdin Hne 0 _ Herr). }
  split; [exact Hs | ]. unfold main.
  destruct (loop_servable rt MCPServer.init stdin Hs 0
              {| stdout := []; stderr := banner |})
    as [H1 [_ [answers [H3 [H4 _]]]]].
  split; [exact H1 | ]. rewrite H3. simpl. exact H4.
Qed.

Lemma silent_run_answers_every_line_witness :
  (Forall (fun l => l <> "") [line "oops"; initialize_line "1"]
   /\ stderr (snd (main sample_runtime [line "oops"; initialize_line "1"]))
      = banner)
  /\ Forall (servable sample_runtime) [line "oops"; initialize_line "1"]
  /\ fst (main sample_runtime [line "oops"; initialize_line "1"]) = []
  /\ List.length
       (stdout (snd (main sample_runtime [line "oops"; initialize_line "1"])))
     = List.length [line "oops"; initialize_line "1"].
Proof.
  assert (Hne : Forall (fun l => l <> "") [line "oops"; initialize_line "1"]).
  { constructor; [discriminate | constructor; [discriminate | constructor] ]. }
  split; [split; [exact Hne | reflexivity] | ].
  exact (silent_run_answers_every_line sample_runtime
           [line "oops"; initialize_line "1"] Hne eq_refl).
Defined.

